(** * binary-time: the time-to-binary encoding pipeline of [src/main.c]

    A shallow embedding of [power], [format_as_binary], [tm_get_hours],
    [tm_get_months], the formatting part of [display_time], [on_tick] and
    [debug_time], followed by the properties of the encoder, of the
    formatter, of sequences of ticks and of the debug log.

    Conventions of the embedding:
    - a C [int] is a [Z] in [int_min .. int_max] (32 bits on the ARM target);
      every arithmetic operation of the source is followed by [to_int], the
      two's complement wrap-around;
    - a [char] buffer is a [list ascii] whose length is the size of the
      array object; a store outside the object is a fault ([None]);
    - a counted [for] loop is [for_upto];
    - of the C library, [snprintf] with the conversions [%i] and [%s] is
      modelled as the C standard describes it. *)

From Stdlib Require Import ZArith Ascii Lia.
From Stdlib Require String.
From stdpp Require Import base option list.

Local Open Scope Z_scope.

(* ------------------------------------------------------------------ *)
(** ** Machine integers *)

Module Int.

Definition int_min : Z := - 2 ^ 31.
Definition int_max : Z := 2 ^ 31 - 1.

(** [z] is the value of some [int]. *)
Definition is_int (z : Z) : Prop := int_min <= z <= int_max.

(** [z] is the value of some [size_t] (32 bits as well). *)
Definition is_size_t (z : Z) : Prop := 0 <= z < 2 ^ 32.

(** Reduction of a mathematical integer to the [int] it wraps to; also
    the conversion [(int)x] of a [size_t]. *)
Definition to_int (z : Z) : Z := (z + 2 ^ 31) mod 2 ^ 32 - 2 ^ 31.

Definition add (a b : Z) : Z := to_int (a + b).
Definition sub (a b : Z) : Z := to_int (a - b).
Definition mul (a b : Z) : Z := to_int (a * b).

(** [a % b]: the remainder of the division truncated toward zero. *)
Definition rem (a b : Z) : Z := Z.rem a b.

End Int.

(* ------------------------------------------------------------------ *)
(** ** Counted loops *)

(** [for_loop n i body s]: [n] more iterations of a loop whose counter is
    now [i]. *)
Fixpoint for_loop {St : Type} (n : nat) (i : Z) (body : Z -> St -> St) (s : St) : St :=
  match n with
  | O => s
  | S n' => for_loop n' (Int.add i 1) body (body i s)
  end.

(** [for (int i = lo; i < hi; i++) body], for a body that assigns neither
    [i] nor [hi]: it runs [hi - lo] times, and not at all when [hi <= lo]. *)
Definition for_upto {St : Type} (lo hi : Z) (body : Z -> St -> St) (s : St) : St :=
  for_loop (Z.to_nat (hi - lo)) lo body s.

(* ------------------------------------------------------------------ *)
(** ** Character buffers *)

Definition NUL : ascii := Ascii.zero.

(** [buffer[i] = c]. Defined only inside the array object. *)
Definition store_char (buffer : list ascii) (i : Z) (c : ascii) : option (list ascii) :=
  if bool_decide (0 <= i < Z.of_nat (length buffer))
  then Some (<[Z.to_nat i := c]> buffer)
  else None.

(** The C string held by a buffer: the characters before the first NUL. *)
Fixpoint c_str (buffer : list ascii) : list ascii :=
  match buffer with
  | [] => []
  | c :: rest => if Ascii.eqb c NUL then [] else c :: c_str rest
  end.

(** Reading a digit string as a most-significant-bit-first binary number. *)
Definition bit_value (c : ascii) : Z := if Ascii.eqb c "1"%char then 1 else 0.

Definition read_binary (digits : list ascii) : Z :=
  fold_left (fun acc c => 2 * acc + bit_value c) digits 0.

Definition binary_digit (c : ascii) : Prop := c = "0"%char \/ c = "1"%char.

(* ------------------------------------------------------------------ *)
(** ** The binary encoder *)

(** [power]: [p] starts at 1 and is multiplied by [base], [expont] times. *)
Definition power (base expont : Z) : Z :=
  for_upto 0 expont (fun _ p => Int.mul p base) 1.

(** One iteration of the loop of [format_as_binary], on the pair of the
    local [store] and the buffer. *)
Definition format_step (end_ : Z) (i : Z) (st : option (Z * list ascii))
  : option (Z * list ascii) :=
  '(store, buffer) ← st;
  if bool_decide (store >= power 2 (Int.sub (Int.sub end_ 1) i)) then
    buffer' ← store_char buffer i "1"%char;
    Some (Int.sub store (power 2 (Int.sub (Int.sub end_ 1) i)), buffer')
  else
    buffer' ← store_char buffer i "0"%char;
    Some (store, buffer').

(** [format_as_binary buffer length value]: the buffer after the call, or
    [None] when the call stores outside the buffer. *)
Definition format_as_binary (buffer : list ascii) (length : Z) (value : Z)
  : option (list ascii) :=
  let store := value in
  let end_ := Int.sub (Int.to_int length) 1 in
  '(_, buffer') ← for_upto 0 end_ (format_step end_) (Some (store, buffer));
  store_char buffer' end_ NUL.

(* ------------------------------------------------------------------ *)
(** ** The time formatter *)

Definition HOUR_BINARY_LENGTH : Z := 5.
Definition MINUTE_BINARY_LENGTH : Z := 6.
Definition MONTH_BINARY_LENGTH : Z := 4.
Definition DAY_BINARY_LENGTH : Z := 6.

(** The fields of [struct tm] the program reads. *)
Record tm : Type := mk_tm {
  tm_min : Z;
  tm_hour : Z;
  tm_mday : Z;
  tm_mon : Z
}.

(** The device setting that [clock_is_24h_style()] reports. *)
Inductive ClockStyle : Type := Hour12 | Hour24.

Definition clock_is_24h_style (style : ClockStyle) : bool :=
  match style with Hour24 => true | Hour12 => false end.

Definition tm_get_hours (style : ClockStyle) (tick_time : tm) : Z :=
  let hours := tm_hour tick_time in
  if clock_is_24h_style style then hours
  else if Int.rem hours 12 =? 0 then 12
       else Int.rem hours 12.

Definition tm_get_months (tick_time : tm) : Z :=
  Int.add (tm_mon tick_time) 1.

(** The four static binary buffers. *)
Record buffers : Type := mk_buffers {
  hour_binary_buffer : list ascii;
  minute_binary_buffer : list ascii;
  month_binary_buffer : list ascii;
  day_binary_buffer : list ascii
}.

(** The buffers are the arrays the program declares:
    [char x_binary_buffer[X_BINARY_LENGTH + 1]]. *)
Definition buffers_declared (b : buffers) : Prop :=
  Z.of_nat (length (hour_binary_buffer b)) = HOUR_BINARY_LENGTH + 1 /\
  Z.of_nat (length (minute_binary_buffer b)) = MINUTE_BINARY_LENGTH + 1 /\
  Z.of_nat (length (month_binary_buffer b)) = MONTH_BINARY_LENGTH + 1 /\
  Z.of_nat (length (day_binary_buffer b)) = DAY_BINARY_LENGTH + 1.

(** The formatting pass of [display_time]: the four calls of
    [format_as_binary], each with [sizeof] of its buffer. The logging and
    the calls of [text_layer_set_text] that follow read the buffers and do
    not change them. *)
Definition display_time (style : ClockStyle) (tick_time : tm) (b : buffers)
  : option buffers :=
  hour ← format_as_binary (hour_binary_buffer b) (HOUR_BINARY_LENGTH + 1)
                          (tm_get_hours style tick_time);
  minute ← format_as_binary (minute_binary_buffer b) (MINUTE_BINARY_LENGTH + 1)
                            (tm_min tick_time);
  month ← format_as_binary (month_binary_buffer b) (MONTH_BINARY_LENGTH + 1)
                           (tm_get_months tick_time);
  day ← format_as_binary (day_binary_buffer b) (DAY_BINARY_LENGTH + 1)
                         (tm_mday tick_time);
  Some (mk_buffers hour minute month day).

(** The CalendarTime of the data model: the ranges the host clock keeps. *)
Definition calendar_time (t : tm) : Prop :=
  0 <= tm_hour t <= 23 /\ 0 <= tm_min t <= 59 /\
  0 <= tm_mon t <= 11 /\ 1 <= tm_mday t <= 31.

(* ------------------------------------------------------------------ *)
(** ** Auxiliary definitions for the statements *)

(** The digits the scan of [format_as_binary] stores at its [n] last
    positions when the local [store] holds [store] on reaching them. *)
Fixpoint scan_digits (n : nat) (store : Z) : list ascii :=
  match n with
  | O => []
  | S n' =>
      if bool_decide (store >= power 2 (Z.of_nat n'))
      then "1"%char :: scan_digits n' (Int.sub store (power 2 (Z.of_nat n')))
      else "0"%char :: scan_digits n' store
  end.

(** The displayed hour in the words of the specification, with the
    mathematical [mod]. *)
Definition displayed_hour (style : ClockStyle) (hour : Z) : Z :=
  match style with
  | Hour24 => hour
  | Hour12 => let h := hour mod 12 in if h =? 0 then 12 else h
  end.

(** A call [format_as_binary buffer (w + 1) v] on a buffer of [w + 1]
    characters returns normally and leaves the C string [digits]. *)
Definition encodes (w v : Z) (digits : list ascii) : Prop :=
  forall buffer : list ascii,
    Z.of_nat (length buffer) = w + 1 ->
    exists buffer',
      format_as_binary buffer (w + 1) v = Some buffer' /\
      c_str buffer' = digits.

(** The same call leaves a C string of exactly [w] binary digits which,
    read most significant bit first, is the number [n]. *)
Definition encodes_number (w v n : Z) : Prop :=
  forall buffer : list ascii,
    Z.of_nat (length buffer) = w + 1 ->
    exists buffer',
      format_as_binary buffer (w + 1) v = Some buffer' /\
      Z.of_nat (length (c_str buffer')) = w /\
      Forall binary_digit (c_str buffer') /\
      read_binary (c_str buffer') = n.

(** The buffers after a pass, whatever they held before. *)
Definition formatted (style : ClockStyle) (t : tm) : buffers :=
  mk_buffers
    (scan_digits 5 (tm_get_hours style t) ++ [NUL])
    (scan_digits 6 (tm_min t) ++ [NUL])
    (scan_digits 4 (tm_get_months t) ++ [NUL])
    (scan_digits 6 (tm_mday t) ++ [NUL]).

(** The buffers when the program starts: static arrays, zero-filled. *)
Definition initial_buffers : buffers :=
  mk_buffers (replicate 6 NUL) (replicate 7 NUL)
             (replicate 5 NUL) (replicate 7 NUL).

(** [v] brought into [0 .. hi]. *)
Definition clamp (hi v : Z) : Z := Z.max 0 (Z.min v hi).

(** Every field of the [struct tm] holds an [int]. *)
Definition tm_ints (t : tm) : Prop :=
  Int.is_int (tm_hour t) /\ Int.is_int (tm_min t) /\
  Int.is_int (tm_mon t) /\ Int.is_int (tm_mday t).

(* ------------------------------------------------------------------ *)
(** ** The tick handler *)

(** A tick as the timer service delivers it: the time, the units that
    changed, and the clock style the device has at that moment. *)
Record tick : Type := mk_tick {
  tick_style : ClockStyle;
  tick_time : tm;
  units_changed : Z
}.

Definition on_tick (style : ClockStyle) (tick_time : tm) (units_changed : Z)
    (b : buffers) : option buffers :=
  display_time style tick_time b.

(** The handler called on each tick of a sequence, in order. *)
Definition run_ticks (ticks : list tick) (b : buffers) : option buffers :=
  fold_left
    (fun st k => st ≫= on_tick (tick_style k) (tick_time k) (units_changed k))
    ticks (Some b).

(* ------------------------------------------------------------------ *)
(** ** The debug log *)

(** The literal parts of the four format strings of [debug_time]. *)
Module Text.
Import String.
Local Open Scope string_scope.

Definition hours : list ascii := list_ascii_of_string "Hours ".
Definition minutes : list ascii := list_ascii_of_string "Minutes ".
Definition month : list ascii := list_ascii_of_string "Month ".
Definition day : list ascii := list_ascii_of_string "Day ".
Definition arrow : list ascii := list_ascii_of_string " --> ".

End Text.

(** The character of a decimal digit: ['0' + d]. *)
Definition digit_char (d : Z) : ascii := ascii_of_nat (48 + Z.to_nat d).

(** The decimal digits of [n >= 0] put before [acc], the last digit
    first; [fuel] bounds the number of digits. *)
Fixpoint decimal_digits (fuel : nat) (n : Z) (acc : list ascii) : list ascii :=
  match fuel with
  | O => acc
  | S fuel' =>
      let acc' := digit_char (n mod 10) :: acc in
      if n / 10 =? 0 then acc' else decimal_digits fuel' (n / 10) acc'
  end.

(** The conversion [%i] of an [int]: a minus sign for a negative number,
    then its decimal digits, of which an [int] has ten at most. *)
Definition format_int (z : Z) : list ascii :=
  if z <? 0 then "-"%char :: decimal_digits 10 (- z) []
  else decimal_digits 10 z [].

(** The number that a string of decimal digits, with or without a minus
    sign, denotes. *)
Definition decimal_value (digits : list ascii) : Z :=
  fold_left (fun a c => 10 * a + (Z.of_nat (nat_of_ascii c) - 48)) digits 0.

Definition read_int (text : list ascii) : Z :=
  match text with
  | c :: digits => if Ascii.eqb c "-"%char then - decimal_value digits
                   else decimal_value text
  | [] => 0
  end.

(** The string a [char*] argument of [%s] points to: the characters up to
    the first NUL; reading a buffer that holds none runs past its end. *)
Fixpoint read_c_str (buffer : list ascii) : option (list ascii) :=
  match buffer with
  | [] => None
  | c :: rest =>
      if Ascii.eqb c NUL then Some [] else (c ::.) <$> read_c_str rest
  end.

(** [snprintf(buffer, size, ...)] for the formatted output [text]: with
    [size = 0] nothing is stored; otherwise the first [size - 1] characters
    of [text] and a NUL are. *)
Definition snprintf (buffer : list ascii) (size : Z) (text : list ascii)
  : option (list ascii) :=
  if size =? 0 then Some buffer
  else
    let out := take (Z.to_nat (size - 1)) text ++ [NUL] in
    if bool_decide (length out <= length buffer)%nat
    then Some (out ++ drop (length out) buffer)
    else None.

(** The four static debug buffers, [char x_debug_buffer[32]]. *)
Record debug_buffers : Type := mk_debug_buffers {
  hour_debug_buffer : list ascii;
  minute_debug_buffer : list ascii;
  month_debug_buffer : list ascii;
  day_debug_buffer : list ascii
}.

Definition debug_declared (d : debug_buffers) : Prop :=
  length (hour_debug_buffer d) = 32%nat /\
  length (minute_debug_buffer d) = 32%nat /\
  length (month_debug_buffer d) = 32%nat /\
  length (day_debug_buffer d) = 32%nat.

(** [debug_time]: the four calls of [snprintf], each with [sizeof] of its
    buffer, then the four messages handed to [APP_LOG], in order. *)
Definition debug_time (style : ClockStyle) (tick_time : tm) (b : buffers)
    (d : debug_buffers) : option (debug_buffers * list (list ascii)) :=
  hour_digits ← read_c_str (hour_binary_buffer b);
  hour ← snprintf (hour_debug_buffer d) 32
           (Text.hours ++ format_int (tm_get_hours style tick_time)
            ++ Text.arrow ++ hour_digits);
  minute_digits ← read_c_str (minute_binary_buffer b);
  minute ← snprintf (minute_debug_buffer d) 32
             (Text.minutes ++ format_int (tm_min tick_time)
              ++ Text.arrow ++ minute_digits);
  month_digits ← read_c_str (month_binary_buffer b);
  month ← snprintf (month_debug_buffer d) 32
            (Text.month ++ format_int (tm_get_months tick_time)
             ++ Text.arrow ++ month_digits);
  day_digits ← read_c_str (day_binary_buffer b);
  day ← snprintf (day_debug_buffer d) 32
          (Text.day ++ format_int (tm_mday tick_time)
           ++ Text.arrow ++ day_digits);
  hour_line ← read_c_str hour;
  minute_line ← read_c_str minute;
  month_line ← read_c_str month;
  day_line ← read_c_str day;
  Some (mk_debug_buffers hour minute month day,
        [hour_line; minute_line; month_line; day_line]).

(** The debug buffers when the program starts. *)
Definition initial_debug_buffers : debug_buffers :=
  mk_debug_buffers (replicate 32 NUL) (replicate 32 NUL)
                   (replicate 32 NUL) (replicate 32 NUL).

(* ------------------------------------------------------------------ *)
(** ** Facts on machine integers *)

Lemma to_int_small (z : Z) : Int.is_int z -> Int.to_int z = z.
Proof.
  unfold Int.is_int, Int.int_min, Int.int_max, Int.to_int. intros Hz.
  rewrite Z.mod_small by lia. lia.
Qed.

Lemma to_int_is_int (z : Z) : Int.is_int (Int.to_int z).
Proof.
  unfold Int.is_int, Int.int_min, Int.int_max, Int.to_int.
  pose proof (Z.mod_pos_bound (z + 2 ^ 31) (2 ^ 32)). lia.
Qed.

Lemma pow2_pos (n : Z) : 0 <= n -> 0 < 2 ^ n.
Proof. intros; apply Z.pow_pos_nonneg; lia. Qed.

Lemma pow2_le_int_max (n : Z) : 0 <= n <= 30 -> 0 < 2 ^ n <= Int.int_max.
Proof.
  intros Hn. split; [apply pow2_pos; lia|].
  pose proof (Z.pow_le_mono_r 2 n 30). unfold Int.int_max. lia.
Qed.

(* ------------------------------------------------------------------ *)
(** ** [power] *)

Lemma for_loop_mul2 (n : nat) (i p : Z) :
  0 <= p -> p * 2 ^ Z.of_nat n <= Int.int_max ->
  for_loop n i (fun _ q => Int.mul q 2) p = p * 2 ^ Z.of_nat n.
Proof.
  revert i p. induction n as [|n IH]; intros i p Hp Hb.
  - simpl. lia.
  - rewrite Nat2Z.inj_succ, Z.pow_succ_r in * by lia.
    cbn [for_loop]. unfold Int.mul at 2.
    rewrite to_int_small
      by (unfold Int.is_int, Int.int_min; pose proof (pow2_pos (Z.of_nat n)); nia).
    rewrite IH by lia. lia.
Qed.

(** Up to the exponent 30 no multiplication overflows. *)
Lemma power_2 (e : Z) : 0 <= e <= 30 -> power 2 e = 2 ^ e.
Proof.
  intros He. unfold power, for_upto.
  pose proof (pow2_le_int_max e He).
  rewrite for_loop_mul2; rewrite ?Z2Nat.id; try lia.
  all: replace (e - 0) with e by lia; lia.
Qed.

(* ------------------------------------------------------------------ *)
(** ** Buffers and digit strings *)

Lemma store_char_middle (pre post : list ascii) (old c : ascii) (i : Z) :
  Z.of_nat (length pre) = i ->
  store_char (pre ++ old :: post) i c = Some (pre ++ c :: post).
Proof.
  intros Hi. unfold store_char.
  rewrite bool_decide_eq_true_2
    by (rewrite length_app; cbn [length]; lia).
  f_equal. replace (Z.to_nat i) with (length pre + 0)%nat by lia.
  now rewrite insert_app_r.
Qed.

Lemma scan_digits_length (n : nat) (store : Z) :
  length (scan_digits n store) = n.
Proof.
  revert store. induction n as [|n IH]; intros store; cbn [scan_digits]; [done|].
  case_bool_decide; cbn [length]; now rewrite IH.
Qed.

Lemma scan_digits_binary (n : nat) (store : Z) :
  Forall binary_digit (scan_digits n store).
Proof.
  revert store. induction n as [|n IH]; intros store; cbn [scan_digits].
  - constructor.
  - case_bool_decide; constructor; auto; [right|left]; reflexivity.
Qed.

Lemma c_str_digits (digits post : list ascii) :
  Forall binary_digit digits -> c_str (digits ++ NUL :: post) = digits.
Proof.
  induction 1 as [|c digits [-> | ->] _ IH]; cbn; [done| |]; now rewrite IH.
Qed.

(* ------------------------------------------------------------------ *)
(** ** The loop of [format_as_binary] *)

Lemma end_of_length (w : Z) :
  1 <= w <= Int.int_max -> Int.sub (Int.to_int (w + 1)) 1 = w.
Proof.
  intros Hw. destruct (decide (w = Int.int_max)) as [-> | Hne].
  - reflexivity.
  - unfold Int.sub. unfold Int.int_max in *.
    rewrite (to_int_small (w + 1))
      by (unfold Int.is_int, Int.int_min, Int.int_max; lia).
    rewrite to_int_small
      by (unfold Int.is_int, Int.int_min, Int.int_max; lia).
    lia.
Qed.

Lemma exponent_of_position (end_ i : Z) (n : nat) :
  0 <= i -> i + Z.of_nat (S n) = end_ -> end_ <= Int.int_max ->
  Int.sub (Int.sub end_ 1) i = Z.of_nat n.
Proof.
  intros Hi He Hmax. unfold Int.sub, Int.int_max in *.
  rewrite (to_int_small (end_ - 1))
    by (unfold Int.is_int, Int.int_min, Int.int_max; lia).
  rewrite to_int_small
    by (unfold Int.is_int, Int.int_min, Int.int_max; lia).
  lia.
Qed.

(** Invariant of the scan: with [n] positions left from index [i], the
    loop overwrites exactly the next [n] characters, by [scan_digits]. *)
Lemma format_loop (end_ : Z) (n : nat) :
  forall (i store : Z) (pre mid post : list ascii),
    0 <= i -> i + Z.of_nat n = end_ -> end_ <= Int.int_max ->
    Z.of_nat (length pre) = i -> length mid = n ->
    exists store',
      for_loop n i (format_step end_) (Some (store, pre ++ mid ++ post))
      = Some (store', pre ++ scan_digits n store ++ post).
Proof.
  induction n as [|n IH]; intros i store pre mid post Hi He Hmax Hpre Hmid.
  - destruct mid; [|discriminate]. exists store. reflexivity.
  - destruct mid as [|old mid]; [discriminate|].
    injection Hmid as Hmid.
    assert (Hnext : Int.add i 1 = i + 1).
    { unfold Int.add. apply to_int_small.
      unfold Int.is_int, Int.int_min, Int.int_max in *. lia. }
    cbn [for_loop scan_digits]. rewrite Hnext.
    unfold format_step at 2. cbn [mbind option_bind].
    rewrite (exponent_of_position end_ i n Hi He Hmax).
    cbn [app].
    case_bool_decide.
    + rewrite (store_char_middle pre (mid ++ post) old "1"%char i Hpre).
      cbn [mbind option_bind].
      destruct (IH (i + 1) (Int.sub store (power 2 (Z.of_nat n)))
                  (pre ++ ["1"%char]) mid post) as [store' Hloop];
        try lia; [rewrite length_app; cbn [length]; lia|].
      exists store'. rewrite <- !app_assoc in Hloop. exact Hloop.
    + rewrite (store_char_middle pre (mid ++ post) old "0"%char i Hpre).
      cbn [mbind option_bind].
      destruct (IH (i + 1) store (pre ++ ["0"%char]) mid post)
        as [store' Hloop];
        try lia; [rewrite length_app; cbn [length]; lia|].
      exists store'. rewrite <- !app_assoc in Hloop. exact Hloop.
Qed.

(** The whole call, on any buffer that has room for [w + 1] characters. *)
Lemma format_as_binary_result (buffer : list ascii) (w v : Z) :
  1 <= w <= Int.int_max -> w + 1 <= Z.of_nat (length buffer) ->
  format_as_binary buffer (w + 1) v
  = Some (scan_digits (Z.to_nat w) v ++ NUL :: drop (Z.to_nat w + 1) buffer).
Proof.
  intros Hw Hlen. unfold format_as_binary.
  rewrite (end_of_length w Hw). unfold for_upto.
  replace (w - 0) with w by lia.
  rewrite <- (take_drop (Z.to_nat w) buffer) at 1.
  destruct (drop (Z.to_nat w) buffer) as [|old post] eqn:Hdrop.
  { apply (f_equal length) in Hdrop. rewrite length_drop in Hdrop.
    cbn [length] in Hdrop. lia. }
  assert (Hpost : drop (Z.to_nat w + 1) buffer = post).
  { rewrite <- drop_drop, Hdrop. reflexivity. }
  destruct (format_loop w (Z.to_nat w) 0 v [] (take (Z.to_nat w) buffer)
              (old :: post)) as [store' Hloop];
    try (cbn [length]; lia); [rewrite length_take; lia|].
  cbn [app] in Hloop. rewrite Hloop. cbn [mbind option_bind].
  rewrite Hpost. apply store_char_middle.
  rewrite scan_digits_length. lia.
Qed.

Lemma encodes_scan_digits (w v : Z) :
  1 <= w <= Int.int_max -> encodes w v (scan_digits (Z.to_nat w) v).
Proof.
  intros Hw buffer Hlen. eexists. split.
  - apply format_as_binary_result; lia.
  - apply c_str_digits, scan_digits_binary.
Qed.

(* ------------------------------------------------------------------ *)
(** ** The digits of the scan, for widths without overflow *)

(** Up to 31 positions, neither [power] nor the subtraction wraps. *)
Lemma scan_digits_S (n : nat) (store : Z) :
  (n <= 30)%nat -> Int.is_int store ->
  scan_digits (S n) store
  = if bool_decide (store >= 2 ^ Z.of_nat n)
    then "1"%char :: scan_digits n (store - 2 ^ Z.of_nat n)
    else "0"%char :: scan_digits n store.
Proof.
  intros Hn Hs. cbn [scan_digits]. rewrite power_2 by lia.
  case_bool_decide; [|reflexivity].
  unfold Int.sub. rewrite to_int_small; [reflexivity|].
  pose proof (pow2_le_int_max (Z.of_nat n)).
  unfold Int.is_int, Int.int_min, Int.int_max in *. lia.
Qed.

Lemma is_int_below_pow2 (n : nat) (store : Z) :
  (n <= 31)%nat -> 0 <= store < 2 ^ Z.of_nat n -> Int.is_int store.
Proof.
  intros Hn Hs. pose proof (Z.pow_le_mono_r 2 (Z.of_nat n) 31).
  unfold Int.is_int, Int.int_min, Int.int_max. lia.
Qed.

Lemma read_scan_digits (n : nat) :
  forall acc store : Z,
    (n <= 31)%nat -> 0 <= store < 2 ^ Z.of_nat n ->
    fold_left (fun a c => 2 * a + bit_value c) (scan_digits n store) acc
    = acc * 2 ^ Z.of_nat n + store.
Proof.
  induction n as [|n IH]; intros acc store Hn Hs.
  - cbn in *. lia.
  - rewrite scan_digits_S by (eauto using is_int_below_pow2; lia).
    rewrite Nat2Z.inj_succ, Z.pow_succ_r in * by lia.
    case_bool_decide; cbn [fold_left]; rewrite IH by lia;
      cbn; lia.
Qed.

Lemma scan_digits_saturate (n : nat) :
  forall store : Z,
    (n <= 31)%nat -> Int.is_int store -> store >= 2 ^ Z.of_nat n ->
    scan_digits n store = replicate n "1"%char.
Proof.
  induction n as [|n IH]; intros store Hn Hint Hs; [reflexivity|].
  rewrite scan_digits_S by (auto; lia).
  rewrite Nat2Z.inj_succ, Z.pow_succ_r in Hs by lia.
  pose proof (pow2_pos (Z.of_nat n)).
  rewrite bool_decide_eq_true_2 by lia.
  cbn [replicate]. f_equal. apply IH; try lia.
  unfold Int.is_int, Int.int_min, Int.int_max in *. lia.
Qed.

Lemma scan_digits_nonpos (n : nat) :
  forall store : Z,
    (n <= 31)%nat -> store <= 0 ->
    scan_digits n store = replicate n "0"%char.
Proof.
  induction n as [|n IH]; intros store Hn Hs; [reflexivity|].
  cbn [scan_digits]. rewrite power_2 by lia.
  pose proof (pow2_pos (Z.of_nat n)).
  rewrite bool_decide_eq_false_2 by lia.
  cbn [replicate]. f_equal. apply IH; lia.
Qed.

Lemma read_all_ones (n : nat) (acc : Z) :
  fold_left (fun a c => 2 * a + bit_value c) (replicate n "1"%char) acc
  = acc * 2 ^ Z.of_nat n + 2 ^ Z.of_nat n - 1.
Proof.
  revert acc. induction n as [|n IH]; intros acc.
  - cbn. lia.
  - cbn [replicate fold_left]. rewrite IH.
    rewrite Nat2Z.inj_succ, Z.pow_succ_r by lia. cbn. lia.
Qed.

Lemma width_is_int (w : Z) : 1 <= w <= 31 -> 1 <= w <= Int.int_max.
Proof. unfold Int.int_max. lia. Qed.

Lemma encodes_functional (w v : Z) (d1 d2 : list ascii) :
  0 <= w -> encodes w v d1 -> encodes w v d2 -> d1 = d2.
Proof.
  intros Hw H1 H2.
  destruct (H1 (replicate (Z.to_nat (w + 1)) NUL)) as (b1 & Hb1 & <-);
    [rewrite length_replicate; lia|].
  destruct (H2 (replicate (Z.to_nat (w + 1)) NUL)) as (b2 & Hb2 & <-);
    [rewrite length_replicate; lia|].
  congruence.
Qed.

Lemma encodes_number_of_digits (w v n : Z) (digits : list ascii) :
  encodes w v digits ->
  Z.of_nat (length digits) = w -> Forall binary_digit digits ->
  read_binary digits = n ->
  encodes_number w v n.
Proof.
  intros Henc Hlen Hbin Hread buffer Hbuf.
  destruct (Henc buffer Hbuf) as (buffer' & Hcall & Hstr).
  exists buffer'. rewrite Hstr. auto.
Qed.

(* ------------------------------------------------------------------ *)
(** ** The encoder on in-range, large and non-positive values *)

Lemma encodes_number_in_range (w v : Z) :
  1 <= w <= 31 -> 0 <= v < 2 ^ w -> encodes_number w v v.
Proof.
  intros Hw Hv.
  apply (encodes_number_of_digits w v v (scan_digits (Z.to_nat w) v)).
  - apply encodes_scan_digits, width_is_int, Hw.
  - rewrite scan_digits_length. lia.
  - apply scan_digits_binary.
  - unfold read_binary.
    rewrite read_scan_digits; rewrite ?Z2Nat.id; lia.
Qed.

(** An [int] that is at least [2^w] leaves no room for a width above 30. *)
Lemma width_of_large_value (w v : Z) :
  Int.is_int v -> v >= 2 ^ w -> w <= 30.
Proof.
  intros Hint Hv. destruct (decide (w <= 30)) as [|Hbig]; [done|].
  pose proof (Z.pow_le_mono_r 2 31 w).
  unfold Int.is_int, Int.int_max in Hint. lia.
Qed.

Lemma encodes_all_ones (w v : Z) :
  1 <= w -> Int.is_int v -> v >= 2 ^ w ->
  encodes w v (replicate (Z.to_nat w) "1"%char).
Proof.
  intros Hw Hint Hv. pose proof (width_of_large_value w v Hint Hv).
  rewrite <- (scan_digits_saturate (Z.to_nat w) v);
    rewrite ?Z2Nat.id; try lia; [|done].
  apply encodes_scan_digits. unfold Int.int_max. lia.
Qed.

Lemma read_binary_all_ones (w : Z) :
  0 <= w -> read_binary (replicate (Z.to_nat w) "1"%char) = 2 ^ w - 1.
Proof.
  intros Hw. unfold read_binary. rewrite read_all_ones, Z2Nat.id; lia.
Qed.

Lemma encodes_all_zeros (w v : Z) :
  1 <= w <= 31 -> v <= 0 ->
  encodes w v (replicate (Z.to_nat w) "0"%char).
Proof.
  intros Hw Hv.
  rewrite <- (scan_digits_nonpos (Z.to_nat w) v) by lia.
  apply encodes_scan_digits, width_is_int, Hw.
Qed.

Lemma scan_digits_max (n : nat) :
  (n <= 31)%nat ->
  scan_digits n (2 ^ Z.of_nat n - 1) = replicate n "1"%char.
Proof.
  induction n as [|n IH]; intros Hn; [reflexivity|].
  pose proof (pow2_le_int_max (Z.of_nat n)) as Hp.
  rewrite scan_digits_S; try lia.
  - rewrite Nat2Z.inj_succ, Z.pow_succ_r by lia.
    rewrite bool_decide_eq_true_2 by lia.
    cbn [replicate]. f_equal.
    replace (2 * 2 ^ Z.of_nat n - 1 - 2 ^ Z.of_nat n)
      with (2 ^ Z.of_nat n - 1) by lia.
    apply IH. lia.
  - apply (is_int_below_pow2 (S n)); lia.
Qed.

Lemma int_small : forall z : Z, -1000 <= z <= 1000 -> Int.is_int z.
Proof. unfold Int.is_int, Int.int_min, Int.int_max. lia. Qed.

(* ------------------------------------------------------------------ *)
(** ** Properties of the binary encoder *)

(** C1 (as amended). For every width [w] from 1 to 31 and every [v] with
    [0 <= v < 2^w], [format_as_binary] called with a buffer of length
    [w + 1] leaves a string of exactly [w] characters, each '0' or '1',
    which read most significant bit first is [v]. *)
Theorem format_as_binary_faithful (w v : Z) :
  1 <= w <= 31 -> 0 <= v < 2 ^ w -> encodes_number w v v.
Proof. exact (encodes_number_in_range w v). Qed.

Lemma format_as_binary_faithful_witness :
  1 <= 5 <= 31 /\ 0 <= 23 < 2 ^ 5 /\ encodes_number 5 23 23.
Proof.
  assert (Hw : 1 <= 5 <= 31) by lia.
  assert (Hv : 0 <= 23 < 2 ^ 5) by lia.
  exact (conj Hw (conj Hv (format_as_binary_faithful 5 23 Hw Hv))).
Defined.

(** C1 fails at the width 32: [power 2 31] wraps to [int_min], the first
    comparison succeeds for every [int], and the value 0 comes out as a
    '1' followed by 31 '0's. *)
Lemma format_as_binary_width_32_unfaithful :
  1 <= 32 /\ 0 <= 0 < 2 ^ 32 /\ ~ encodes_number 32 0 0.
Proof.
  split; [lia|]. split; [lia|]. intros H.
  destruct (H (replicate 33 NUL) eq_refl) as (b & Hcall & _ & _ & Hread).
  vm_compute in Hcall. injection Hcall as <-.
  vm_compute in Hread. discriminate.
Qed.

(** C9. For every width [w >= 1] and every [int] value [v >= 2^w], the
    buffer is filled with the all-ones string of [w] characters, which
    decodes to [2^w - 1]: out-of-range values saturate. *)
Theorem format_as_binary_saturates (w v : Z) :
  1 <= w -> Int.is_int v -> v >= 2 ^ w ->
  encodes w v (replicate (Z.to_nat w) "1"%char) /\
  read_binary (replicate (Z.to_nat w) "1"%char) = 2 ^ w - 1.
Proof.
  intros Hw Hint Hv. split.
  - now apply encodes_all_ones.
  - apply read_binary_all_ones. lia.
Qed.

Lemma format_as_binary_saturates_witness :
  encodes 5 40 (replicate 5 "1"%char) /\
  read_binary (replicate 5 "1"%char) = 2 ^ 5 - 1.
Proof.
  apply (format_as_binary_saturates 5 40).
  - lia.
  - apply int_small. lia.
  - lia.
Defined.

(** C2 (as amended). For every width [w] from 1 to 31 and every
    non-negative [int] value [v], decoding the string the encoder leaves
    recovers the minimum of [v] and [2^w - 1]; and for [v >= 2^w] the
    string is the one the encoder leaves for [2^w - 1]. *)
Theorem format_as_binary_saturating_decode (w v : Z) :
  1 <= w <= 31 -> Int.is_int v -> 0 <= v ->
  encodes_number w v (Z.min v (2 ^ w - 1)) /\
  (v >= 2 ^ w ->
   exists digits, encodes w v digits /\ encodes w (2 ^ w - 1) digits).
Proof.
  intros Hw Hint Hv.
  pose proof (pow2_pos w) as Hpos.
  destruct (decide (v < 2 ^ w)) as [Hlt | Hge].
  - split; [|lia].
    rewrite Z.min_l by lia. apply encodes_number_in_range; lia.
  - assert (Henc : encodes w v (replicate (Z.to_nat w) "1"%char))
      by (apply encodes_all_ones; try lia; done).
    split.
    + rewrite Z.min_r by lia.
      apply (encodes_number_of_digits w v _ _ Henc).
      * rewrite length_replicate. lia.
      * apply Forall_replicate. right; reflexivity.
      * apply read_binary_all_ones. lia.
    + intros _. exists (replicate (Z.to_nat w) "1"%char). split; [exact Henc|].
      rewrite <- (scan_digits_max (Z.to_nat w)) by lia.
      rewrite Z2Nat.id by lia.
      apply encodes_scan_digits, width_is_int, Hw.
Qed.

Lemma format_as_binary_saturating_decode_witness :
  encodes_number 3 9 (Z.min 9 (2 ^ 3 - 1)) /\
  (9 >= 2 ^ 3 ->
   exists digits, encodes 3 9 digits /\ encodes 3 (2 ^ 3 - 1) digits).
Proof.
  apply (format_as_binary_saturating_decode 3 9).
  - lia.
  - apply int_small. lia.
  - lia.
Defined.

(** C2 fails at [w = 2], [v = 4]: the encoder leaves "11" for 4 and "00"
    for [4 mod 2^2], and "11" decodes to 3, not to [4 mod 2^2]. *)
Lemma format_as_binary_not_modular :
  4 >= 2 ^ 2 /\
  encodes 2 4 ["1"%char; "1"%char] /\
  encodes 2 (4 mod 2 ^ 2) ["0"%char; "0"%char] /\
  ~ encodes_number 2 4 (4 mod 2 ^ 2).
Proof.
  assert (Hw : 1 <= 2 <= Int.int_max) by (unfold Int.int_max; lia).
  split; [lia|]. split; [exact (encodes_scan_digits 2 4 Hw)|].
  split; [exact (encodes_scan_digits 2 (4 mod 2 ^ 2) Hw)|].
  intros H.
  destruct (H (replicate 3 NUL) eq_refl) as (b & Hcall & _ & _ & Hread).
  vm_compute in Hcall. injection Hcall as <-.
  vm_compute in Hread. discriminate.
Qed.

(** C7 (as amended). For every width [w] from 1 to 31, the value 0 is
    encoded as the string of exactly [w] characters '0'. *)
Theorem format_as_binary_zero (w : Z) :
  1 <= w <= 31 -> encodes w 0 (replicate (Z.to_nat w) "0"%char).
Proof. intros Hw. apply encodes_all_zeros; [exact Hw|lia]. Qed.

Lemma format_as_binary_zero_witness :
  encodes 6 0 (replicate (Z.to_nat 6) "0"%char).
Proof. apply (format_as_binary_zero 6). lia. Defined.

(** C7 fails at the width 32: the first character stored for 0 is '1'. *)
Lemma format_as_binary_zero_width_32 :
  1 <= 32 /\ ~ encodes 32 0 (replicate (Z.to_nat 32) "0"%char).
Proof.
  split; [lia|]. intros H.
  destruct (H (replicate 33 NUL) eq_refl) as (b & Hcall & Hstr).
  vm_compute in Hcall. injection Hcall as <-.
  vm_compute in Hstr. discriminate.
Qed.

(** C10 (as amended). For every width [w] from 1 to 31 and every negative
    value [v], the call returns normally and leaves the string of exactly
    [w] characters '0'. *)
Theorem format_as_binary_negative (w v : Z) :
  1 <= w <= 31 -> v < 0 -> encodes w v (replicate (Z.to_nat w) "0"%char).
Proof. intros Hw Hv. apply encodes_all_zeros; [exact Hw|lia]. Qed.

Lemma format_as_binary_negative_witness :
  encodes 4 (-7) (replicate (Z.to_nat 4) "0"%char).
Proof. apply (format_as_binary_negative 4 (-7)); lia. Defined.

(** C10 fails at the width 32: [power 2 31] wraps to [int_min], which no
    [int] is below, and the value -1 comes out as 32 characters '1'. *)
Lemma format_as_binary_negative_width_32 :
  1 <= 32 /\ Int.is_int (-1) /\ -1 < 0 /\
  encodes 32 (-1) (replicate (Z.to_nat 32) "1"%char) /\
  ~ encodes 32 (-1) (replicate (Z.to_nat 32) "0"%char).
Proof.
  assert (Hw : 1 <= 32 <= Int.int_max) by (unfold Int.int_max; lia).
  split; [lia|]. split; [apply int_small; lia|]. split; [lia|].
  assert (Hones : encodes 32 (-1) (replicate (Z.to_nat 32) "1"%char)).
  { assert (Hscan : scan_digits (Z.to_nat 32) (-1)
                    = replicate (Z.to_nat 32) "1"%char)
      by (vm_compute; reflexivity).
    rewrite <- Hscan. exact (encodes_scan_digits 32 (-1) Hw). }
  split; [exact Hones|]. intros Hzeros.
  pose proof (encodes_functional 32 (-1) _ _ ltac:(lia) Hones Hzeros) as Heq.
  vm_compute in Heq. discriminate.
Qed.

(** C6 (as amended). For every value and every positive width [w] up to
    [int_max], a call with the length [w + 1] on a buffer that has at
    least [w + 1] characters returns normally (no store falls outside the
    buffer), leaves the buffer's size and every character past index [w]
    unchanged, and puts the terminating NUL at index [w] and not before. *)
Theorem format_as_binary_in_bounds (buffer : list ascii) (w v : Z) :
  1 <= w <= Int.int_max -> w + 1 <= Z.of_nat (length buffer) ->
  exists buffer',
    format_as_binary buffer (w + 1) v = Some buffer' /\
    length buffer' = length buffer /\
    buffer' !! Z.to_nat w = Some NUL /\
    Z.of_nat (length (c_str buffer')) = w /\
    drop (Z.to_nat w + 1) buffer' = drop (Z.to_nat w + 1) buffer.
Proof.
  intros Hw Hlen. eexists. split; [apply format_as_binary_result; assumption|].
  pose proof (scan_digits_length (Z.to_nat w) v) as Hscan.
  repeat split.
  - rewrite length_app. cbn [length]. rewrite length_drop, Hscan. lia.
  - apply list_lookup_middle. now rewrite Hscan.
  - rewrite c_str_digits by apply scan_digits_binary. lia.
  - rewrite (cons_middle NUL), app_assoc.
    apply drop_app_length'. rewrite length_app, Hscan. reflexivity.
Qed.

Lemma format_as_binary_in_bounds_witness :
  exists buffer',
    format_as_binary (replicate 8 "x"%char) (5 + 1) 99 = Some buffer' /\
    length buffer' = length (replicate 8 "x"%char) /\
    buffer' !! Z.to_nat 5 = Some NUL /\
    Z.of_nat (length (c_str buffer')) = 5 /\
    drop (Z.to_nat 5 + 1) buffer' = drop (Z.to_nat 5 + 1) (replicate 8 "x"%char).
Proof.
  apply (format_as_binary_in_bounds (replicate 8 "x"%char) 5 99).
  - unfold Int.int_max. lia.
  - cbn. lia.
Defined.

(** C6 fails at the width [2^31]: the length [2^31 + 1] is a [size_t],
    its conversion to [int] is negative, the loop is skipped and the NUL
    is stored at the index [int_min], outside the buffer. *)
Lemma format_as_binary_huge_length_faults :
  1 <= 2 ^ 31 /\ Int.is_size_t (2 ^ 31 + 1) /\
  Z.of_nat (length (replicate (Z.to_nat (2 ^ 31 + 1)) NUL)) = 2 ^ 31 + 1 /\
  format_as_binary (replicate (Z.to_nat (2 ^ 31 + 1)) NUL) (2 ^ 31 + 1) 0
  = None.
Proof.
  split; [lia|]. split; [unfold Int.is_size_t; lia|]. split.
  - rewrite length_replicate. apply Z2Nat.id. lia.
  - generalize (replicate (Z.to_nat (2 ^ 31 + 1)) NUL). intros buffer.
    reflexivity.
Qed.

(* ------------------------------------------------------------------ *)
(** ** The formatting pass *)

(** A buffer of exactly [w + 1] characters is overwritten whole. *)
Lemma format_as_binary_exact (buffer : list ascii) (w v : Z) :
  1 <= w <= Int.int_max -> Z.of_nat (length buffer) = w + 1 ->
  format_as_binary buffer (w + 1) v
  = Some (scan_digits (Z.to_nat w) v ++ [NUL]).
Proof.
  intros Hw Hlen. rewrite format_as_binary_result by lia.
  rewrite drop_ge by lia. reflexivity.
Qed.

Lemma display_time_result (style : ClockStyle) (t : tm) (b : buffers) :
  buffers_declared b -> display_time style t b = Some (formatted style t).
Proof.
  intros (Hh & Hm & Hmo & Hd). unfold display_time.
  assert (Hw : forall w, 1 <= w <= 6 -> 1 <= w <= Int.int_max)
    by (unfold Int.int_max; lia).
  unfold HOUR_BINARY_LENGTH, MINUTE_BINARY_LENGTH, MONTH_BINARY_LENGTH,
    DAY_BINARY_LENGTH in *.
  rewrite (format_as_binary_exact _ 5) by (try apply Hw; lia). cbn [mbind option_bind].
  rewrite (format_as_binary_exact _ 6) by (try apply Hw; lia). cbn [mbind option_bind].
  rewrite (format_as_binary_exact _ 4) by (try apply Hw; lia). cbn [mbind option_bind].
  rewrite (format_as_binary_exact _ 6) by (try apply Hw; lia). reflexivity.
Qed.

Lemma formatted_declared (style : ClockStyle) (t : tm) :
  buffers_declared (formatted style t).
Proof.
  unfold buffers_declared, formatted; cbn [hour_binary_buffer
    minute_binary_buffer month_binary_buffer day_binary_buffer].
  rewrite !length_app, !scan_digits_length. repeat split.
Qed.

Lemma field_decodes (n : nat) (v : Z) :
  (n <= 31)%nat -> 0 <= v < 2 ^ Z.of_nat n ->
  read_binary (c_str (scan_digits n v ++ [NUL])) = v.
Proof.
  intros Hn Hv. rewrite c_str_digits by apply scan_digits_binary.
  unfold read_binary. rewrite read_scan_digits; lia.
Qed.

Lemma field_length (n : nat) (v : Z) :
  length (c_str (scan_digits n v ++ [NUL])) = n.
Proof.
  rewrite c_str_digits by apply scan_digits_binary.
  apply scan_digits_length.
Qed.

Lemma tm_get_hours_displayed (style : ClockStyle) (t : tm) :
  0 <= tm_hour t -> tm_get_hours style t = displayed_hour style (tm_hour t).
Proof.
  intros Hh. unfold tm_get_hours, displayed_hour, Int.rem.
  destruct style; cbn [clock_is_24h_style]; [|reflexivity].
  rewrite Z.rem_mod_nonneg by lia. reflexivity.
Qed.

Lemma displayed_hour_range (style : ClockStyle) (hour : Z) :
  0 <= hour <= 23 -> 0 <= displayed_hour style hour <= 23.
Proof.
  intros Hh. unfold displayed_hour. destruct style; [|lia].
  pose proof (Z.mod_pos_bound hour 12). cbv zeta.
  destruct (Z.eqb_spec (hour mod 12) 0); lia.
Qed.

Lemma tm_get_months_succ (t : tm) :
  Int.is_int (tm_mon t + 1) -> tm_get_months t = tm_mon t + 1.
Proof. intros H. unfold tm_get_months, Int.add. now apply to_int_small. Qed.

(** What the four fields decode to on a CalendarTime. *)
Lemma display_time_decodes (style : ClockStyle) (t : tm) (b : buffers) :
  calendar_time t -> buffers_declared b ->
  exists b',
    display_time style t b = Some b' /\
    read_binary (c_str (hour_binary_buffer b')) = displayed_hour style (tm_hour t) /\
    read_binary (c_str (minute_binary_buffer b')) = tm_min t /\
    read_binary (c_str (month_binary_buffer b')) = tm_mon t + 1 /\
    read_binary (c_str (day_binary_buffer b')) = tm_mday t.
Proof.
  intros (Hh & Hm & Hmo & Hd) Hb. exists (formatted style t).
  split; [now apply display_time_result|].
  unfold formatted; cbn [hour_binary_buffer minute_binary_buffer
    month_binary_buffer day_binary_buffer].
  rewrite tm_get_hours_displayed by lia.
  rewrite tm_get_months_succ by (apply int_small; lia).
  pose proof (displayed_hour_range style (tm_hour t) Hh).
  repeat split; apply field_decodes; try lia;
    change (2 ^ Z.of_nat 5) with 32; change (2 ^ Z.of_nat 6) with 64;
    change (2 ^ Z.of_nat 4) with 16; lia.
Qed.

Lemma initial_buffers_declared : buffers_declared initial_buffers.
Proof. repeat split. Qed.

Lemma calendar_time_intro (minute hour day month : Z) :
  0 <= hour <= 23 -> 0 <= minute <= 59 -> 0 <= month <= 11 -> 1 <= day <= 31 ->
  calendar_time (mk_tm minute hour day month).
Proof. unfold calendar_time. cbn. auto. Qed.

(* ------------------------------------------------------------------ *)
(** ** Properties of the time formatter *)

(** C3. On a CalendarTime, the hour handed to the encoder is the displayed
    hour of the specification: [time.hour] under Hour24; under Hour12,
    with [h = time.hour mod 12], 12 when [h = 0] and [h] otherwise; and
    the hour field decodes to it. In particular 0 and 12 display as 12 and
    13 as 1 under Hour12, and 23 displays as 23 under Hour24. *)
Theorem hour_derivation (style : ClockStyle) (t : tm) (b : buffers) :
  calendar_time t -> buffers_declared b ->
  tm_get_hours style t = displayed_hour style (tm_hour t) /\
  (exists b',
     display_time style t b = Some b' /\
     read_binary (c_str (hour_binary_buffer b'))
     = displayed_hour style (tm_hour t)) /\
  displayed_hour Hour12 0 = 12 /\ displayed_hour Hour12 12 = 12 /\
  displayed_hour Hour12 13 = 1 /\ displayed_hour Hour24 23 = 23.
Proof.
  intros Ht Hb. split; [|split].
  - apply tm_get_hours_displayed. destruct Ht as (Hh & _). lia.
  - destruct (display_time_decodes style t b Ht Hb) as (b' & Hrun & Hhour & _).
    exists b'. auto.
  - repeat split.
Qed.

Lemma hour_derivation_witness :
  (exists b', display_time Hour12 (mk_tm 5 0 1 0) initial_buffers = Some b' /\
              read_binary (c_str (hour_binary_buffer b')) = 12) /\
  (exists b', display_time Hour12 (mk_tm 5 12 1 0) initial_buffers = Some b' /\
              read_binary (c_str (hour_binary_buffer b')) = 12) /\
  (exists b', display_time Hour12 (mk_tm 5 13 1 0) initial_buffers = Some b' /\
              read_binary (c_str (hour_binary_buffer b')) = 1) /\
  (exists b', display_time Hour24 (mk_tm 5 23 1 0) initial_buffers = Some b' /\
              read_binary (c_str (hour_binary_buffer b')) = 23).
Proof.
  assert (Hc : forall h, 0 <= h <= 23 -> calendar_time (mk_tm 5 h 1 0))
    by (intros h Hh; apply calendar_time_intro; lia).
  pose proof initial_buffers_declared as Hb.
  split; [|split; [|split]].
  - exact (proj1 (proj2 (hour_derivation Hour12 (mk_tm 5 0 1 0)
                           initial_buffers (Hc 0 ltac:(lia)) Hb))).
  - exact (proj1 (proj2 (hour_derivation Hour12 (mk_tm 5 12 1 0)
                           initial_buffers (Hc 12 ltac:(lia)) Hb))).
  - exact (proj1 (proj2 (hour_derivation Hour12 (mk_tm 5 13 1 0)
                           initial_buffers (Hc 13 ltac:(lia)) Hb))).
  - exact (proj1 (proj2 (hour_derivation Hour24 (mk_tm 5 23 1 0)
                           initial_buffers (Hc 23 ltac:(lia)) Hb))).
Defined.

(** C4. On a CalendarTime and under either clock style, the month handed
    to the encoder is [time.month + 1] and the month field decodes to it:
    month 0 gives 1 and month 11 gives 12. *)
Theorem month_derivation (style : ClockStyle) (t : tm) (b : buffers) :
  calendar_time t -> buffers_declared b ->
  tm_get_months t = tm_mon t + 1 /\
  exists b',
    display_time style t b = Some b' /\
    read_binary (c_str (month_binary_buffer b')) = tm_mon t + 1.
Proof.
  intros Ht Hb. split.
  - apply tm_get_months_succ, int_small.
    destruct Ht as (_ & _ & Hmo & _). lia.
  - destruct (display_time_decodes style t b Ht Hb)
      as (b' & Hrun & _ & _ & Hmonth & _).
    exists b'. auto.
Qed.

Lemma month_derivation_witness :
  (exists b', display_time Hour12 (mk_tm 5 0 1 0) initial_buffers = Some b' /\
              read_binary (c_str (month_binary_buffer b')) = 1) /\
  (exists b', display_time Hour24 (mk_tm 5 0 1 0) initial_buffers = Some b' /\
              read_binary (c_str (month_binary_buffer b')) = 1) /\
  (exists b', display_time Hour12 (mk_tm 5 0 1 11) initial_buffers = Some b' /\
              read_binary (c_str (month_binary_buffer b')) = 12) /\
  (exists b', display_time Hour24 (mk_tm 5 0 1 11) initial_buffers = Some b' /\
              read_binary (c_str (month_binary_buffer b')) = 12).
Proof.
  assert (Hc : forall m, 0 <= m <= 11 -> calendar_time (mk_tm 5 0 1 m))
    by (intros m Hm; apply calendar_time_intro; lia).
  pose proof initial_buffers_declared as Hb.
  split; [|split; [|split]].
  - exact (proj2 (month_derivation Hour12 (mk_tm 5 0 1 0)
                    initial_buffers (Hc 0 ltac:(lia)) Hb)).
  - exact (proj2 (month_derivation Hour24 (mk_tm 5 0 1 0)
                    initial_buffers (Hc 0 ltac:(lia)) Hb)).
  - exact (proj2 (month_derivation Hour12 (mk_tm 5 0 1 11)
                    initial_buffers (Hc 11 ltac:(lia)) Hb)).
  - exact (proj2 (month_derivation Hour24 (mk_tm 5 0 1 11)
                    initial_buffers (Hc 11 ltac:(lia)) Hb)).
Defined.

(** C5. The field widths are 5, 6, 4 and 6 bits for hour, minute, month
    and day. On a CalendarTime the minute and the day are handed to the
    encoder unchanged, each field is a string of exactly its width, and
    nothing is truncated: minute and day decode to [time.minute] and
    [time.day], and under Hour24 hour and month decode to [time.hour] and
    [time.month + 1] (23, 59, 12 and 31 on the maximal input). *)
Theorem field_widths_suffice (style : ClockStyle) (t : tm) (b : buffers) :
  calendar_time t -> buffers_declared b ->
  (HOUR_BINARY_LENGTH = 5 /\ MINUTE_BINARY_LENGTH = 6 /\
   MONTH_BINARY_LENGTH = 4 /\ DAY_BINARY_LENGTH = 6) /\
  exists b',
    display_time style t b = Some b' /\
    format_as_binary (minute_binary_buffer b) (MINUTE_BINARY_LENGTH + 1)
                     (tm_min t) = Some (minute_binary_buffer b') /\
    format_as_binary (day_binary_buffer b) (DAY_BINARY_LENGTH + 1)
                     (tm_mday t) = Some (day_binary_buffer b') /\
    (Z.of_nat (length (c_str (hour_binary_buffer b'))) = HOUR_BINARY_LENGTH /\
     Z.of_nat (length (c_str (minute_binary_buffer b'))) = MINUTE_BINARY_LENGTH /\
     Z.of_nat (length (c_str (month_binary_buffer b'))) = MONTH_BINARY_LENGTH /\
     Z.of_nat (length (c_str (day_binary_buffer b'))) = DAY_BINARY_LENGTH) /\
    read_binary (c_str (minute_binary_buffer b')) = tm_min t /\
    read_binary (c_str (day_binary_buffer b')) = tm_mday t /\
    (style = Hour24 ->
     read_binary (c_str (hour_binary_buffer b')) = tm_hour t /\
     read_binary (c_str (month_binary_buffer b')) = tm_mon t + 1).
Proof.
  intros Ht Hb. split; [repeat split|].
  destruct (display_time_decodes style t b Ht Hb)
    as (b' & Hrun & Hhour & Hmin & Hmonth & Hday).
  exists b'. split; [exact Hrun|].
  assert (Hb' : b' = formatted style t).
  { rewrite (display_time_result style t b Hb) in Hrun. congruence. }
  destruct Hb as (_ & Hlm & _ & Hld).
  assert (Hw : 1 <= 6 <= Int.int_max) by (unfold Int.int_max; lia).
  split; [|split; [|split; [|split; [|split]]]].
  - subst b'. apply (format_as_binary_exact _ 6); assumption.
  - subst b'. apply (format_as_binary_exact _ 6); assumption.
  - subst b'. unfold formatted; cbn [hour_binary_buffer minute_binary_buffer
      month_binary_buffer day_binary_buffer].
    rewrite !field_length. repeat split.
  - exact Hmin.
  - exact Hday.
  - intros ->. split; [exact Hhour|exact Hmonth].
Qed.

Lemma field_widths_suffice_witness :
  exists b',
    display_time Hour24 (mk_tm 59 23 31 11) initial_buffers = Some b' /\
    read_binary (c_str (hour_binary_buffer b')) = 23 /\
    read_binary (c_str (minute_binary_buffer b')) = 59 /\
    read_binary (c_str (month_binary_buffer b')) = 12 /\
    read_binary (c_str (day_binary_buffer b')) = 31.
Proof.
  assert (Hc : calendar_time (mk_tm 59 23 31 11))
    by (apply calendar_time_intro; lia).
  destruct (field_widths_suffice Hour24 (mk_tm 59 23 31 11) initial_buffers
              Hc initial_buffers_declared)
    as (_ & b' & Hrun & _ & _ & _ & Hmin & Hday & Hrest).
  destruct (Hrest eq_refl) as (Hhour & Hmonth).
  exists b'. repeat split; assumption.
Defined.

(** C8. The formatting pass depends on its inputs only: run with the same
    time and clock style on buffers of any previous contents, it leaves
    the same four buffers, and run again on its own result it leaves them
    as they are. *)
Theorem display_time_idempotent
    (style : ClockStyle) (t : tm) (b1 b2 : buffers) :
  buffers_declared b1 -> buffers_declared b2 ->
  exists r,
    display_time style t b1 = Some r /\
    display_time style t b2 = Some r /\
    display_time style t r = Some r.
Proof.
  intros H1 H2. exists (formatted style t).
  repeat split; apply display_time_result;
    auto using formatted_declared.
Qed.

Lemma display_time_idempotent_witness :
  exists r,
    display_time Hour12 (mk_tm 5 0 1 0) initial_buffers = Some r /\
    display_time Hour12 (mk_tm 5 0 1 0)
      (mk_buffers (replicate 6 "1"%char) (replicate 7 "x"%char)
                  (replicate 5 "0"%char) (replicate 7 "y"%char)) = Some r /\
    display_time Hour12 (mk_tm 5 0 1 0) r = Some r.
Proof.
  apply display_time_idempotent.
  - exact initial_buffers_declared.
  - repeat split.
Defined.

(* ------------------------------------------------------------------ *)
(** ** A pass at startup *)

(** Midnight past five on the first of January, 12-hour style: the four
    buffers hold "01100", "000101", "0001" and "000001". *)
Example display_time_new_year :
  c_str <$> (hour_binary_buffer <$>
             display_time Hour12 (mk_tm 5 0 1 0) initial_buffers)
  = Some ["0"; "1"; "1"; "0"; "0"]%char /\
  c_str <$> (minute_binary_buffer <$>
             display_time Hour12 (mk_tm 5 0 1 0) initial_buffers)
  = Some ["0"; "0"; "0"; "1"; "0"; "1"]%char /\
  c_str <$> (month_binary_buffer <$>
             display_time Hour12 (mk_tm 5 0 1 0) initial_buffers)
  = Some ["0"; "0"; "0"; "1"]%char /\
  c_str <$> (day_binary_buffer <$>
             display_time Hour12 (mk_tm 5 0 1 0) initial_buffers)
  = Some ["0"; "0"; "0"; "0"; "0"; "1"]%char.
Proof. repeat split. Qed.

(* ------------------------------------------------------------------ *)
(** ** [power] on every base and exponent *)

Lemma to_int_mul_l (a b : Z) : Int.to_int (Int.to_int a * b) = Int.to_int (a * b).
Proof.
  unfold Int.to_int. f_equal.
  rewrite (Z.mod_eq (a + 2 ^ 31) (2 ^ 32)) by lia.
  replace ((a + 2 ^ 31 - 2 ^ 32 * ((a + 2 ^ 31) / 2 ^ 32) - 2 ^ 31) * b + 2 ^ 31)
    with (a * b + 2 ^ 31 + (- ((a + 2 ^ 31) / 2 ^ 32) * b) * 2 ^ 32) by ring.
  apply Z_mod_plus_full.
Qed.

Lemma for_loop_mul (base : Z) (n : nat) :
  forall i p : Z,
    for_loop n i (fun _ q => Int.mul q base) (Int.to_int p)
    = Int.to_int (p * base ^ Z.of_nat n).
Proof.
  induction n as [|n IH]; intros i p.
  - cbn [for_loop]. f_equal. change (base ^ Z.of_nat 0) with 1. lia.
  - cbn [for_loop]. unfold Int.mul at 2. rewrite to_int_mul_l, IH.
    f_equal. rewrite Nat2Z.inj_succ, Z.pow_succ_r by lia. ring.
Qed.

Lemma power_to_int (base expont : Z) :
  0 <= expont -> power base expont = Int.to_int (base ^ expont).
Proof.
  intros He. unfold power, for_upto.
  change 1 with (Int.to_int 1) at 1. rewrite for_loop_mul.
  rewrite Z2Nat.id by lia. f_equal. replace (expont - 0) with expont by lia.
  lia.
Qed.

(** X1. Whatever the base, and whether or not a multiplication overflows,
    [power base expont] for [expont >= 0] is the [int] that the
    mathematical power [base ^ expont] wraps to; so it is [base ^ expont]
    itself whenever that is an [int]. *)
Theorem power_wraps (base expont : Z) :
  0 <= expont ->
  power base expont = Int.to_int (base ^ expont) /\
  (Int.is_int (base ^ expont) -> power base expont = base ^ expont).
Proof.
  intros He. split; [now apply power_to_int|].
  intros Hint. rewrite power_to_int by assumption. now apply to_int_small.
Qed.

Lemma power_wraps_witness :
  (power 3 4 = Int.to_int (3 ^ 4) /\
   (Int.is_int (3 ^ 4) -> power 3 4 = 3 ^ 4)) /\
  (power (-7) 13 = Int.to_int ((-7) ^ 13) /\
   (Int.is_int ((-7) ^ 13) -> power (-7) 13 = (-7) ^ 13)).
Proof.
  split.
  - apply (power_wraps 3 4). lia.
  - apply (power_wraps (-7) 13). lia.
Defined.

(** X2. [power] does not reject an exponent that is zero or negative: the
    loop is skipped and the result is 1, whatever the base. *)
Theorem power_nonpositive_exponent (base expont : Z) :
  expont <= 0 -> power base expont = 1.
Proof.
  intros He. unfold power, for_upto.
  replace (Z.to_nat (expont - 0)) with 0%nat by lia. reflexivity.
Qed.

Lemma power_nonpositive_exponent_witness :
  power 2 0 = 1 /\ power 5 (-3) = 1.
Proof.
  split.
  - apply (power_nonpositive_exponent 2 0). lia.
  - apply (power_nonpositive_exponent 5 (-3)). lia.
Defined.

(** X3. From the exponent 32 on, [power 2] is 0: the product has left the
    32 bits of the [int]. *)
Theorem power_2_vanishes (expont : Z) :
  32 <= expont -> power 2 expont = 0.
Proof.
  intros He. rewrite power_to_int by lia.
  replace expont with (32 + (expont - 32)) by lia.
  rewrite Z.pow_add_r by lia. unfold Int.to_int.
  rewrite Z.add_comm, Z.mul_comm, Z_mod_plus_full. reflexivity.
Qed.

Lemma power_2_vanishes_witness : power 2 40 = 0.
Proof. apply (power_2_vanishes 40). lia. Defined.

(* ------------------------------------------------------------------ *)
(** ** [format_as_binary] and the size of its buffer *)

Lemma store_char_length (buffer buffer' : list ascii) (i : Z) (c : ascii) :
  store_char buffer i c = Some buffer' ->
  length buffer' = length buffer /\ 0 <= i < Z.of_nat (length buffer).
Proof.
  unfold store_char. case_bool_decide; [|discriminate].
  intros [= <-]. rewrite length_insert. auto.
Qed.

Lemma format_step_length (end_ i store store' : Z) (buffer buffer' : list ascii) :
  format_step end_ i (Some (store, buffer)) = Some (store', buffer') ->
  length buffer' = length buffer.
Proof.
  unfold format_step. cbn [mbind option_bind].
  case_bool_decide.
  - destruct (store_char buffer i "1"%char) as [b|] eqn:Hst; [|discriminate].
    cbn [mbind option_bind]. intros [= _ <-].
    now apply store_char_length in Hst.
  - destruct (store_char buffer i "0"%char) as [b|] eqn:Hst; [|discriminate].
    cbn [mbind option_bind]. intros [= _ <-].
    now apply store_char_length in Hst.
Qed.

(** The loop never resizes the buffer, and a fault ends it. *)
Lemma format_loop_length (end_ : Z) (n : nat) :
  forall (i : Z) (st : option (Z * list ascii)) (store' : Z) (buffer' : list ascii),
    for_loop n i (format_step end_) st = Some (store', buffer') ->
    exists store buffer,
      st = Some (store, buffer) /\ length buffer' = length buffer.
Proof.
  induction n as [|n IH]; intros i st store' buffer' Hrun.
  - cbn [for_loop] in Hrun. subst st. eauto.
  - cbn [for_loop] in Hrun.
    destruct (IH _ _ _ _ Hrun) as (s1 & b1 & Hstep & Hlen).
    destruct st as [[store buffer]|]; [|discriminate].
    exists store, buffer. split; [reflexivity|].
    apply format_step_length in Hstep. congruence.
Qed.

(** X4. For a width [w] from 1 to [int_max], the call with the length
    [w + 1] returns normally exactly when the buffer really has [w + 1]
    characters or more; on a shorter buffer it stores outside it. *)
Theorem format_as_binary_needs_room (buffer : list ascii) (w v : Z) :
  1 <= w <= Int.int_max ->
  is_Some (format_as_binary buffer (w + 1) v)
  <-> w + 1 <= Z.of_nat (length buffer).
Proof.
  intros Hw. split.
  - intros [r Hr]. unfold format_as_binary in Hr.
    rewrite (end_of_length w Hw) in Hr.
    destruct (for_upto 0 w (format_step w) (Some (v, buffer)))
      as [[store' buffer']|] eqn:Hloop; [|discriminate].
    cbn [mbind option_bind] in Hr.
    apply store_char_length in Hr as [_ Hi].
    apply format_loop_length in Hloop as (s0 & b0 & [= _ <-] & Hlen).
    lia.
  - intros Hlen. rewrite format_as_binary_result by assumption. eauto.
Qed.

Lemma format_as_binary_needs_room_witness :
  (is_Some (format_as_binary (replicate 6 NUL) (5 + 1) 23)
   <-> 5 + 1 <= Z.of_nat (length (replicate 6 NUL))) /\
  (is_Some (format_as_binary (replicate 4 NUL) (5 + 1) 23)
   <-> 5 + 1 <= Z.of_nat (length (replicate 4 NUL))).
Proof.
  assert (Hw : 1 <= 5 <= Int.int_max) by (unfold Int.int_max; lia).
  split.
  - exact (format_as_binary_needs_room (replicate 6 NUL) 5 23 Hw).
  - exact (format_as_binary_needs_room (replicate 4 NUL) 5 23 Hw).
Defined.

(** X5. With the length 1 there is no digit position: the call stores the
    NUL at index 0 and nothing else, so the buffer then holds the empty
    string, whatever the value. On an empty buffer it faults. *)
Theorem format_as_binary_length_one (buffer : list ascii) (v : Z) :
  format_as_binary buffer 1 v
  = match buffer with
    | [] => None
    | _ :: rest => Some (NUL :: rest)
    end.
Proof. destruct buffer; reflexivity. Qed.

(** X6. With the length 0 the index of the terminator is -1: the call
    stores before the start of the buffer, whatever the buffer and the
    value. *)
Theorem format_as_binary_length_zero (buffer : list ascii) (v : Z) :
  format_as_binary buffer 0 v = None.
Proof. reflexivity. Qed.

(* ------------------------------------------------------------------ *)
(** ** The encoder as a function of its value *)

Lemma read_all_zeros (n : nat) (acc : Z) :
  fold_left (fun a c => 2 * a + bit_value c) (replicate n "0"%char) acc
  = acc * 2 ^ Z.of_nat n.
Proof.
  revert acc. induction n as [|n IH]; intros acc.
  - cbn. lia.
  - cbn [replicate fold_left]. rewrite IH.
    rewrite Nat2Z.inj_succ, Z.pow_succ_r by lia. cbn. lia.
Qed.

(** X7. For every width [w] from 1 to 31 and every [int] value [v], in
    range or not, the string the encoder leaves has exactly [w] binary
    digits and decodes to [v] brought into [0 .. 2^w - 1]: negative values
    give 0 and values from [2^w] on give [2^w - 1]. *)
Theorem format_as_binary_clamps (w v : Z) :
  1 <= w <= 31 -> Int.is_int v ->
  encodes_number w v (clamp (2 ^ w - 1) v).
Proof.
  intros Hw Hint. pose proof (pow2_pos w) as Hpos. unfold clamp.
  destruct (decide (v < 0)) as [Hneg|Hnn];
    [|destruct (decide (v < 2 ^ w)) as [Hlt|Hge]].
  - rewrite Z.max_l by lia.
    apply (encodes_number_of_digits w v _ (replicate (Z.to_nat w) "0"%char)).
    + apply encodes_all_zeros; lia.
    + rewrite length_replicate. lia.
    + apply Forall_replicate. left; reflexivity.
    + unfold read_binary. rewrite read_all_zeros. lia.
  - rewrite Z.min_l, Z.max_r by lia. apply encodes_number_in_range; lia.
  - rewrite Z.min_r, Z.max_r by lia.
    apply (encodes_number_of_digits w v _ (replicate (Z.to_nat w) "1"%char)).
    + apply encodes_all_ones; try lia; done.
    + rewrite length_replicate. lia.
    + apply Forall_replicate. right; reflexivity.
    + apply read_binary_all_ones. lia.
Qed.

Lemma format_as_binary_clamps_witness :
  encodes_number 5 (-3) (clamp (2 ^ 5 - 1) (-3)) /\
  encodes_number 5 23 (clamp (2 ^ 5 - 1) 23) /\
  encodes_number 5 77 (clamp (2 ^ 5 - 1) 77).
Proof.
  assert (Hw : 1 <= 5 <= 31) by lia.
  split; [|split].
  - exact (format_as_binary_clamps 5 (-3) Hw (int_small (-3) ltac:(lia))).
  - exact (format_as_binary_clamps 5 23 Hw (int_small 23 ltac:(lia))).
  - exact (format_as_binary_clamps 5 77 Hw (int_small 77 ltac:(lia))).
Defined.

(** X8. For every width [w] from 1 to 31 the encoder is injective on
    [0 .. 2^w - 1]: two different in-range values leave different
    strings. *)
Theorem format_as_binary_injective (w v1 v2 : Z) (d1 d2 : list ascii) :
  1 <= w <= 31 -> 0 <= v1 < 2 ^ w -> 0 <= v2 < 2 ^ w ->
  encodes w v1 d1 -> encodes w v2 d2 -> v1 <> v2 -> d1 <> d2.
Proof.
  intros Hw H1 H2 He1 He2 Hne Heq. apply Hne. subst d2.
  assert (Hw0 : 0 <= w) by lia.
  pose proof (encodes_scan_digits w v1 (width_is_int w Hw)) as Hs1.
  pose proof (encodes_scan_digits w v2 (width_is_int w Hw)) as Hs2.
  assert (Heq : scan_digits (Z.to_nat w) v1 = scan_digits (Z.to_nat w) v2).
  { rewrite (encodes_functional w v1 _ _ Hw0 Hs1 He1).
    exact (encodes_functional w v2 _ _ Hw0 He2 Hs2). }
  apply (f_equal (fun d => fold_left (fun a c => 2 * a + bit_value c) d 0))
    in Heq.
  rewrite !read_scan_digits in Heq; rewrite ?Z2Nat.id; lia.
Qed.

Lemma format_as_binary_injective_witness :
  ["1"; "0"; "1"]%char <> ["1"; "1"; "0"]%char.
Proof.
  assert (Hw : 1 <= 3 <= Int.int_max) by (unfold Int.int_max; lia).
  apply (format_as_binary_injective 3 5 6); try lia.
  - exact (encodes_scan_digits 3 5 Hw).
  - exact (encodes_scan_digits 3 6 Hw).
Defined.

(* ------------------------------------------------------------------ *)
(** ** The hour of the 12-hour style *)

Lemma rem_12_bounds (a : Z) :
  (0 <= a -> 0 <= Z.rem a 12 <= 11) /\ (a <= 0 -> -11 <= Z.rem a 12 <= 0).
Proof.
  split; intros Ha.
  - pose proof (Z.rem_bound_pos a 12). lia.
  - pose proof (Z.rem_bound_pos (- a) 12) as Hb.
    rewrite Z.rem_opp_l' in Hb. lia.
Qed.

(** X9. Under the 12-hour style [tm_get_hours] never returns 0: from an
    hour that is not negative it returns a number from 1 to 12; from a
    negative hour (the remainder takes the sign of the hour) it returns 12
    or a number from -11 to -1. *)
Theorem tm_get_hours_12h_range (t : tm) :
  tm_get_hours Hour12 t <> 0 /\
  -11 <= tm_get_hours Hour12 t <= 12 /\
  (0 <= tm_hour t -> 1 <= tm_get_hours Hour12 t) /\
  (tm_hour t < 0 -> tm_get_hours Hour12 t = 12 \/ tm_get_hours Hour12 t < 0).
Proof.
  unfold tm_get_hours, Int.rem. cbn [clock_is_24h_style].
  destruct (rem_12_bounds (tm_hour t)) as [Hpos Hneg].
  destruct (Z.eqb_spec (Z.rem (tm_hour t) 12) 0) as [Hz|Hnz].
  - repeat split; lia.
  - repeat split; lia.
Qed.

Lemma rem_12_shift (h : Z) : 0 <= h -> Z.rem (h + 12) 12 = Z.rem h 12.
Proof.
  intros Hh. rewrite !Z.rem_mod_nonneg by lia.
  replace (h + 12) with (h + 1 * 12) by lia. apply Z_mod_plus_full.
Qed.

(** X10. The 12-hour style does not tell the two halves of the day apart:
    a pass with the hour [h + 12] leaves exactly the buffers a pass with
    the hour [h >= 0] leaves, the other fields being the same. *)
Theorem display_time_12h_half_days (t : tm) (b : buffers) :
  0 <= tm_hour t ->
  display_time Hour12
    (mk_tm (tm_min t) (tm_hour t + 12) (tm_mday t) (tm_mon t)) b
  = display_time Hour12 t b.
Proof.
  intros Hh. unfold display_time.
  assert (Hhour : tm_get_hours Hour12
                    (mk_tm (tm_min t) (tm_hour t + 12) (tm_mday t) (tm_mon t))
                  = tm_get_hours Hour12 t).
  { unfold tm_get_hours, Int.rem. cbn [clock_is_24h_style tm_hour].
    now rewrite rem_12_shift. }
  rewrite Hhour. reflexivity.
Qed.

Lemma display_time_12h_half_days_witness :
  display_time Hour12 (mk_tm 30 (9 + 12) 14 6) initial_buffers
  = display_time Hour12 (mk_tm 30 9 14 6) initial_buffers.
Proof.
  apply (display_time_12h_half_days (mk_tm 30 9 14 6) initial_buffers).
  cbn. lia.
Defined.

(* ------------------------------------------------------------------ *)
(** ** The pass on every time, valid or not *)

(** X11. Whatever the fields of the time hold and whatever the style, a
    pass on the declared buffers returns normally, leaves each buffer at
    its declared size, and leaves in each a string of exactly its width
    (5, 6, 4 and 6) made of '0' and '1' only. *)
Theorem display_time_safe (style : ClockStyle) (t : tm) (b : buffers) :
  buffers_declared b ->
  exists b',
    display_time style t b = Some b' /\
    buffers_declared b' /\
    (Z.of_nat (length (c_str (hour_binary_buffer b'))) = HOUR_BINARY_LENGTH /\
     Forall binary_digit (c_str (hour_binary_buffer b'))) /\
    (Z.of_nat (length (c_str (minute_binary_buffer b'))) = MINUTE_BINARY_LENGTH /\
     Forall binary_digit (c_str (minute_binary_buffer b'))) /\
    (Z.of_nat (length (c_str (month_binary_buffer b'))) = MONTH_BINARY_LENGTH /\
     Forall binary_digit (c_str (month_binary_buffer b'))) /\
    (Z.of_nat (length (c_str (day_binary_buffer b'))) = DAY_BINARY_LENGTH /\
     Forall binary_digit (c_str (day_binary_buffer b'))).
Proof.
  intros Hb. exists (formatted style t).
  split; [now apply display_time_result|].
  split; [apply formatted_declared|].
  unfold formatted; cbn [hour_binary_buffer minute_binary_buffer
    month_binary_buffer day_binary_buffer].
  rewrite !field_length.
  rewrite !c_str_digits by apply scan_digits_binary.
  repeat split; apply scan_digits_binary.
Qed.

Lemma display_time_safe_witness :
  exists b',
    display_time Hour24 (mk_tm (-1) 99 0 2147483647) initial_buffers = Some b' /\
    buffers_declared b' /\
    (Z.of_nat (length (c_str (hour_binary_buffer b'))) = HOUR_BINARY_LENGTH /\
     Forall binary_digit (c_str (hour_binary_buffer b'))) /\
    (Z.of_nat (length (c_str (minute_binary_buffer b'))) = MINUTE_BINARY_LENGTH /\
     Forall binary_digit (c_str (minute_binary_buffer b'))) /\
    (Z.of_nat (length (c_str (month_binary_buffer b'))) = MONTH_BINARY_LENGTH /\
     Forall binary_digit (c_str (month_binary_buffer b'))) /\
    (Z.of_nat (length (c_str (day_binary_buffer b'))) = DAY_BINARY_LENGTH /\
     Forall binary_digit (c_str (day_binary_buffer b'))).
Proof.
  apply (display_time_safe Hour24 (mk_tm (-1) 99 0 2147483647) initial_buffers).
  exact initial_buffers_declared.
Defined.

Lemma field_injective (n : nat) (v1 v2 : Z) :
  (n <= 31)%nat -> 0 <= v1 < 2 ^ Z.of_nat n -> 0 <= v2 < 2 ^ Z.of_nat n ->
  scan_digits n v1 ++ [NUL] = scan_digits n v2 ++ [NUL] -> v1 = v2.
Proof.
  intros Hn H1 H2 Heq.
  apply (f_equal (fun l => read_binary (c_str l))) in Heq.
  now rewrite !field_decodes in Heq.
Qed.

(** X12. Under the 24-hour style two CalendarTimes that differ in the
    hour, the minute, the month or the day leave different buffers. *)
Theorem display_time_24h_injective (t1 t2 : tm) (b : buffers) :
  calendar_time t1 -> calendar_time t2 -> buffers_declared b ->
  t1 <> t2 -> display_time Hour24 t1 b <> display_time Hour24 t2 b.
Proof.
  intros (Hh1 & Hm1 & Hmo1 & Hd1) (Hh2 & Hm2 & Hmo2 & Hd2) Hb Hne Heq.
  apply Hne.
  rewrite !display_time_result in Heq by assumption.
  assert (Hf : formatted Hour24 t1 = formatted Hour24 t2)
    by (apply (inj Some), Heq).
  pose proof (f_equal hour_binary_buffer Hf) as Hhour.
  pose proof (f_equal minute_binary_buffer Hf) as Hmin.
  pose proof (f_equal month_binary_buffer Hf) as Hmonth.
  pose proof (f_equal day_binary_buffer Hf) as Hday.
  clear Heq Hf. unfold formatted in Hhour, Hmin, Hmonth, Hday.
  cbn [hour_binary_buffer minute_binary_buffer month_binary_buffer
       day_binary_buffer] in Hhour, Hmin, Hmonth, Hday.
  rewrite !tm_get_months_succ in Hmonth by (apply int_small; lia).
  unfold tm_get_hours in Hhour. cbn [clock_is_24h_style] in Hhour.
  apply field_injective in Hhour, Hmin, Hmonth, Hday;
    try lia;
    try (change (2 ^ Z.of_nat 5) with 32; lia);
    try (change (2 ^ Z.of_nat 6) with 64; lia);
    try (change (2 ^ Z.of_nat 4) with 16; lia).
  destruct t1, t2; cbn in *. f_equal; lia.
Qed.

Lemma display_time_24h_injective_witness :
  display_time Hour24 (mk_tm 30 9 14 6) initial_buffers
  <> display_time Hour24 (mk_tm 30 21 14 6) initial_buffers.
Proof.
  apply (display_time_24h_injective (mk_tm 30 9 14 6) (mk_tm 30 21 14 6)
           initial_buffers).
  - apply calendar_time_intro; lia.
  - apply calendar_time_intro; lia.
  - exact initial_buffers_declared.
  - discriminate.
Defined.

Lemma field_clamps (n : nat) (v : Z) :
  (1 <= n <= 31)%nat -> Int.is_int v ->
  read_binary (c_str (scan_digits n v ++ [NUL])) = clamp (2 ^ Z.of_nat n - 1) v.
Proof.
  intros Hn Hint. pose proof (pow2_pos (Z.of_nat n)) as Hpos.
  rewrite c_str_digits by apply scan_digits_binary. unfold clamp, read_binary.
  destruct (decide (v < 0)) as [Hneg|Hnn];
    [|destruct (decide (v < 2 ^ Z.of_nat n)) as [Hlt|Hge]].
  - rewrite scan_digits_nonpos, read_all_zeros by lia. lia.
  - rewrite read_scan_digits by lia. lia.
  - rewrite scan_digits_saturate, read_all_ones by (auto; lia). lia.
Qed.

Lemma tm_get_hours_is_int (style : ClockStyle) (t : tm) :
  Int.is_int (tm_hour t) -> Int.is_int (tm_get_hours style t).
Proof.
  intros Hint. unfold tm_get_hours, Int.rem.
  destruct style; cbn [clock_is_24h_style]; [|exact Hint].
  destruct (rem_12_bounds (tm_hour t)) as [Hpos Hneg].
  destruct (Z.eqb_spec (Z.rem (tm_hour t) 12) 0); apply int_small;
    destruct (decide (0 <= tm_hour t)); lia.
Qed.

Lemma tm_ints_small (minute hour day month : Z) :
  -1000 <= hour <= 1000 -> -1000 <= minute <= 1000 ->
  -1000 <= month <= 1000 -> -1000 <= day <= 1000 ->
  tm_ints (mk_tm minute hour day month).
Proof. unfold tm_ints. cbn. auto using int_small. Qed.

(** X13. On a time whose fields hold any [int]s, valid or not, each field
    of the display decodes to the number handed to the encoder brought
    into the range of its width: 0 to 31 for the hour, 0 to 63 for the
    minute and the day, 0 to 15 for the month. *)
Theorem display_time_clamps (style : ClockStyle) (t : tm) (b : buffers) :
  tm_ints t -> buffers_declared b ->
  exists b',
    display_time style t b = Some b' /\
    read_binary (c_str (hour_binary_buffer b')) = clamp 31 (tm_get_hours style t) /\
    read_binary (c_str (minute_binary_buffer b')) = clamp 63 (tm_min t) /\
    read_binary (c_str (month_binary_buffer b')) = clamp 15 (tm_get_months t) /\
    read_binary (c_str (day_binary_buffer b')) = clamp 63 (tm_mday t).
Proof.
  intros (Hh & Hm & Hmo & Hd) Hb. exists (formatted style t).
  split; [now apply display_time_result|].
  unfold formatted; cbn [hour_binary_buffer minute_binary_buffer
    month_binary_buffer day_binary_buffer].
  pose proof (tm_get_hours_is_int style t Hh) as Hh'.
  assert (Hmo' : Int.is_int (tm_get_months t)) by apply to_int_is_int.
  rewrite !field_clamps by (assumption || lia).
  repeat split.
Qed.

Lemma display_time_clamps_witness :
  exists b',
    display_time Hour24 (mk_tm (-1) 99 0 40) initial_buffers = Some b' /\
    read_binary (c_str (hour_binary_buffer b'))
    = clamp 31 (tm_get_hours Hour24 (mk_tm (-1) 99 0 40)) /\
    read_binary (c_str (minute_binary_buffer b'))
    = clamp 63 (tm_min (mk_tm (-1) 99 0 40)) /\
    read_binary (c_str (month_binary_buffer b'))
    = clamp 15 (tm_get_months (mk_tm (-1) 99 0 40)) /\
    read_binary (c_str (day_binary_buffer b'))
    = clamp 63 (tm_mday (mk_tm (-1) 99 0 40)).
Proof.
  apply (display_time_clamps Hour24 (mk_tm (-1) 99 0 40) initial_buffers).
  - apply tm_ints_small; lia.
  - exact initial_buffers_declared.
Defined.

(* ------------------------------------------------------------------ *)
(** ** Sequences of ticks *)

Lemma run_ticks_declared (ticks : list tick) :
  forall b : buffers,
    buffers_declared b ->
    exists b', run_ticks ticks b = Some b' /\ buffers_declared b'.
Proof.
  unfold run_ticks. induction ticks as [|k ticks IH]; intros b Hb.
  - exists b. auto.
  - cbn [fold_left mbind option_bind]. unfold on_tick at 2.
    rewrite display_time_result by assumption.
    apply IH, formatted_declared.
Qed.

(** X14. The display keeps no history: after any sequence of ticks, with
    whatever times, styles and changed units, the buffers are those that
    the last tick alone leaves. *)
Theorem run_ticks_last (ticks : list tick) (k : tick) (b : buffers) :
  buffers_declared b ->
  run_ticks (ticks ++ [k]) b
  = display_time (tick_style k) (tick_time k) b.
Proof.
  intros Hb. unfold run_ticks. rewrite fold_left_app. cbn [fold_left].
  destruct (run_ticks_declared ticks b Hb) as (b' & Hrun & Hb').
  unfold run_ticks in Hrun. rewrite Hrun. cbn [mbind option_bind].
  unfold on_tick. now rewrite !display_time_result.
Qed.

Lemma run_ticks_last_witness :
  run_ticks ([mk_tick Hour12 (mk_tm 59 23 31 11) 2;
              mk_tick Hour24 (mk_tm 0 0 1 0) 30]
             ++ [mk_tick Hour24 (mk_tm 1 0 1 0) 2]) initial_buffers
  = display_time Hour24 (mk_tm 1 0 1 0) initial_buffers.
Proof.
  apply (run_ticks_last _ (mk_tick Hour24 (mk_tm 1 0 1 0) 2)).
  exact initial_buffers_declared.
Defined.

(* ------------------------------------------------------------------ *)
(** ** Decimal conversion *)

Lemma digit_char_code (d : Z) :
  0 <= d <= 9 -> Z.of_nat (nat_of_ascii (digit_char d)) = 48 + d.
Proof.
  intros Hd. unfold digit_char. rewrite nat_ascii_embedding; lia.
Qed.

Lemma digit_char_not_NUL (d : Z) : 0 <= d <= 9 -> digit_char d <> NUL.
Proof.
  intros Hd Heq. pose proof (digit_char_code d Hd) as Hc.
  rewrite Heq in Hc. change (nat_of_ascii NUL) with 0%nat in Hc. lia.
Qed.

Lemma digit_char_not_minus (d : Z) : 0 <= d <= 9 -> digit_char d <> "-"%char.
Proof.
  intros Hd Heq. pose proof (digit_char_code d Hd) as Hc.
  rewrite Heq in Hc. change (nat_of_ascii "-"%char) with 45%nat in Hc. lia.
Qed.

Lemma mod_10_digit (n : Z) : 0 <= n mod 10 <= 9.
Proof. pose proof (Z.mod_pos_bound n 10). lia. Qed.

Lemma decimal_digits_length (fuel : nat) :
  forall (n : Z) (acc : list ascii),
    (length (decimal_digits fuel n acc) <= fuel + length acc)%nat.
Proof.
  induction fuel as [|fuel IH]; intros n acc; cbn [decimal_digits]; [lia|].
  destruct (n / 10 =? 0); [cbn [length]; lia|].
  etransitivity; [apply IH|]. cbn [length]. lia.
Qed.

Lemma decimal_digits_no_NUL (fuel : nat) :
  forall (n : Z) (acc : list ascii),
    Forall (fun c => c <> NUL) acc ->
    Forall (fun c => c <> NUL) (decimal_digits fuel n acc).
Proof.
  induction fuel as [|fuel IH]; intros n acc Hacc; cbn [decimal_digits]; [done|].
  assert (Hacc' : Forall (fun c => c <> NUL) (digit_char (n mod 10) :: acc))
    by (constructor; [apply digit_char_not_NUL, mod_10_digit|done]).
  destruct (n / 10 =? 0); auto.
Qed.

Lemma format_int_length (z : Z) : (length (format_int z) <= 11)%nat.
Proof.
  unfold format_int. destruct (z <? 0); cbn [length].
  - pose proof (decimal_digits_length 10 (- z) []). cbn [length] in *. lia.
  - pose proof (decimal_digits_length 10 z []). cbn [length] in *. lia.
Qed.

Lemma format_int_no_NUL (z : Z) : Forall (fun c => c <> NUL) (format_int z).
Proof.
  unfold format_int. destruct (z <? 0).
  - constructor; [discriminate|]. apply decimal_digits_no_NUL. constructor.
  - apply decimal_digits_no_NUL. constructor.
Qed.

Lemma decimal_value_from (digits : list ascii) (a : Z) :
  fold_left (fun a c => 10 * a + (Z.of_nat (nat_of_ascii c) - 48)) digits a
  = a * 10 ^ Z.of_nat (length digits) + decimal_value digits.
Proof.
  unfold decimal_value. revert a.
  induction digits as [|c digits IH]; intros a.
  - cbn. lia.
  - cbn [fold_left length]. rewrite IH, (IH (10 * 0 + _)).
    rewrite Nat2Z.inj_succ, Z.pow_succ_r by lia. ring.
Qed.

Lemma decimal_value_cons (c : ascii) (digits : list ascii) :
  decimal_value (c :: digits)
  = (Z.of_nat (nat_of_ascii c) - 48) * 10 ^ Z.of_nat (length digits)
    + decimal_value digits.
Proof.
  unfold decimal_value at 1. cbn [fold_left]. rewrite decimal_value_from. lia.
Qed.

(** The digits produced denote the number, when the fuel covers it. *)
Lemma decimal_digits_value (fuel : nat) :
  forall (n : Z) (acc : list ascii),
    0 <= n < 10 ^ Z.of_nat fuel ->
    decimal_value (decimal_digits fuel n acc)
    = n * 10 ^ Z.of_nat (length acc) + decimal_value acc.
Proof.
  induction fuel as [|fuel IH]; intros n acc Hn.
  - cbn in Hn. cbn [decimal_digits]. lia.
  - rewrite Nat2Z.inj_succ, Z.pow_succ_r in Hn by lia.
    cbn [decimal_digits]. pose proof (mod_10_digit n) as Hd.
    pose proof (Z.div_mod n 10 ltac:(lia)) as Hdm.
    destruct (Z.eqb_spec (n / 10) 0) as [Hz|Hnz].
    + rewrite decimal_value_cons, digit_char_code by lia. nia.
    + rewrite IH.
      * rewrite decimal_value_cons, digit_char_code by lia.
        cbn [length]. rewrite Nat2Z.inj_succ, Z.pow_succ_r by lia. nia.
      * split; [apply Z.div_pos; lia|].
        apply Z.div_lt_upper_bound; lia.
Qed.

Lemma decimal_digits_head (fuel : nat) :
  forall (n : Z) (acc : list ascii),
    exists d rest,
      0 <= d <= 9 /\ decimal_digits (S fuel) n acc = digit_char d :: rest.
Proof.
  induction fuel as [|fuel IH]; intros n acc.
  - exists (n mod 10), acc. split; [apply mod_10_digit|].
    cbn [decimal_digits]. now destruct (n / 10 =? 0).
  - cbn [decimal_digits] in *. destruct (n / 10 =? 0).
    + exists (n mod 10), acc. split; [apply mod_10_digit|reflexivity].
    + apply IH.
Qed.

(** [format_int] is the decimal notation: read back, it gives the [int]. *)
Lemma format_int_read (z : Z) : Int.is_int z -> read_int (format_int z) = z.
Proof.
  unfold Int.is_int, Int.int_min, Int.int_max. intros Hz.
  unfold format_int. destruct (Z.ltb_spec z 0) as [Hneg|Hpos].
  - cbn [read_int]. rewrite Ascii.eqb_refl, decimal_digits_value.
    + cbn. lia.
    + change (10 ^ Z.of_nat 10) with 10000000000. lia.
  - destruct (decimal_digits_head 9 z []) as (d & rest & Hd & Hhead).
    rewrite Hhead at 1. cbn [read_int].
    destruct (Ascii.eqb_spec (digit_char d) "-"%char) as [Heq|_];
      [now apply digit_char_not_minus in Heq|].
    rewrite <- Hhead, decimal_digits_value.
    + cbn. lia.
    + change (10 ^ Z.of_nat 10) with 10000000000. lia.
Qed.

(* ------------------------------------------------------------------ *)
(** ** The debug log *)

Lemma read_c_str_app (text rest : list ascii) :
  Forall (fun c => c <> NUL) text ->
  read_c_str (text ++ NUL :: rest) = Some text.
Proof.
  induction 1 as [|c text Hc _ IH]; cbn [app read_c_str].
  - reflexivity.
  - destruct (Ascii.eqb_spec c NUL) as [Heq|_]; [done|].
    rewrite IH. reflexivity.
Qed.

Lemma binary_digits_no_NUL (digits : list ascii) :
  Forall binary_digit digits -> Forall (fun c => c <> NUL) digits.
Proof.
  intros H. eapply Forall_impl; [exact H|].
  intros c [-> | ->]; discriminate.
Qed.

Lemma snprintf_fits (buffer text : list ascii) :
  length buffer = 32%nat -> (length text <= 31)%nat ->
  snprintf buffer 32 text
  = Some (text ++ NUL :: drop (S (length text)) buffer).
Proof.
  intros Hbuf Htext. unfold snprintf. cbn [Z.eqb].
  rewrite take_ge by lia.
  rewrite bool_decide_eq_true_2 by (rewrite length_app; cbn [length]; lia).
  rewrite length_app, <- app_assoc. cbn [length app].
  now rewrite Nat.add_1_r.
Qed.

(** One line of the log: it fits its buffer whole. *)
Lemma debug_line_fits (buffer name digits : list ascii) (value : Z) :
  length buffer = 32%nat ->
  (length name <= 8)%nat -> Forall (fun c => c <> NUL) name ->
  (length digits <= 6)%nat -> Forall binary_digit digits ->
  exists out,
    snprintf buffer 32 (name ++ format_int value ++ Text.arrow ++ digits)
    = Some out /\
    length out = 32%nat /\
    read_c_str out = Some (name ++ format_int value ++ Text.arrow ++ digits).
Proof.
  intros Hbuf Hname Hname0 Hdigits Hbin.
  pose proof (format_int_length value) as Hint.
  assert (Hlen : (length (name ++ format_int value ++ Text.arrow ++ digits)
                  <= 30)%nat).
  { rewrite !length_app. change (length Text.arrow) with 5%nat. lia. }
  eexists. split; [apply snprintf_fits; [assumption|lia]|]. split.
  - rewrite length_app. cbn [length]. rewrite length_drop. lia.
  - apply read_c_str_app.
    rewrite !Forall_app. repeat split;
      auto using format_int_no_NUL, binary_digits_no_NUL.
    repeat constructor; discriminate.
Qed.

(** X15. After a pass on a time whose fields hold any [int]s,
    [debug_time] returns normally, leaves the four debug buffers at their
    32 characters, and hands to the log exactly the four lines
    "Hours h --> digits", "Minutes m --> digits", "Month n --> digits"
    and "Day d --> digits", none of them cut short; [h], [m], [n] and [d]
    are the decimal notations of the numbers handed to the encoder. *)
Theorem debug_time_lines
    (style : ClockStyle) (t : tm) (b : buffers) (d : debug_buffers) :
  tm_ints t -> buffers_declared b -> debug_declared d ->
  exists b' d',
    display_time style t b = Some b' /\
    debug_time style t b' d
    = Some (d',
            [Text.hours ++ format_int (tm_get_hours style t)
               ++ Text.arrow ++ c_str (hour_binary_buffer b');
             Text.minutes ++ format_int (tm_min t)
               ++ Text.arrow ++ c_str (minute_binary_buffer b');
             Text.month ++ format_int (tm_get_months t)
               ++ Text.arrow ++ c_str (month_binary_buffer b');
             Text.day ++ format_int (tm_mday t)
               ++ Text.arrow ++ c_str (day_binary_buffer b')]) /\
    debug_declared d' /\
    (read_int (format_int (tm_get_hours style t)) = tm_get_hours style t /\
     read_int (format_int (tm_min t)) = tm_min t /\
     read_int (format_int (tm_get_months t)) = tm_get_months t /\
     read_int (format_int (tm_mday t)) = tm_mday t).
Proof.
  intros (Hih & Him & Himo & Hid) Hb (Hdh & Hdm & Hdmo & Hdd).
  exists (formatted style t).
  destruct (debug_line_fits (hour_debug_buffer d) Text.hours
              (scan_digits 5 (tm_get_hours style t)) (tm_get_hours style t))
    as (oh & Hsh & Hlh & Hrh);
    try (rewrite ?scan_digits_length; cbn [length]; lia);
    auto using scan_digits_binary; [repeat constructor; discriminate|].
  destruct (debug_line_fits (minute_debug_buffer d) Text.minutes
              (scan_digits 6 (tm_min t)) (tm_min t))
    as (om & Hsm & Hlm & Hrm);
    try (rewrite ?scan_digits_length; cbn [length]; lia);
    auto using scan_digits_binary; [repeat constructor; discriminate|].
  destruct (debug_line_fits (month_debug_buffer d) Text.month
              (scan_digits 4 (tm_get_months t)) (tm_get_months t))
    as (omo & Hsmo & Hlmo & Hrmo);
    try (rewrite ?scan_digits_length; cbn [length]; lia);
    auto using scan_digits_binary; [repeat constructor; discriminate|].
  destruct (debug_line_fits (day_debug_buffer d) Text.day
              (scan_digits 6 (tm_mday t)) (tm_mday t))
    as (od & Hsd & Hld & Hrd);
    try (rewrite ?scan_digits_length; cbn [length]; lia);
    auto using scan_digits_binary; [repeat constructor; discriminate|].
  exists (mk_debug_buffers oh om omo od).
  split; [now apply display_time_result|].
  split; [|split].
  - unfold debug_time, formatted.
    cbn [hour_binary_buffer minute_binary_buffer month_binary_buffer
         day_binary_buffer].
    rewrite !c_str_digits by apply scan_digits_binary.
    change [NUL] with (NUL :: @nil ascii).
    rewrite !read_c_str_app by apply binary_digits_no_NUL, scan_digits_binary.
    cbn [mbind option_bind].
    rewrite Hsh. cbn [mbind option_bind].
    rewrite Hsm. cbn [mbind option_bind].
    rewrite Hsmo. cbn [mbind option_bind].
    rewrite Hsd. cbn [mbind option_bind].
    rewrite Hrh, Hrm, Hrmo, Hrd. reflexivity.
  - repeat split; assumption.
  - repeat split; apply format_int_read; try assumption.
    + now apply tm_get_hours_is_int.
    + apply to_int_is_int.
Qed.

Lemma debug_time_lines_witness :
  exists b' d',
    display_time Hour12 (mk_tm 59 23 31 11) initial_buffers = Some b' /\
    debug_time Hour12 (mk_tm 59 23 31 11) b' initial_debug_buffers
    = Some (d',
            [Text.hours ++ format_int (tm_get_hours Hour12 (mk_tm 59 23 31 11))
               ++ Text.arrow ++ c_str (hour_binary_buffer b');
             Text.minutes ++ format_int (tm_min (mk_tm 59 23 31 11))
               ++ Text.arrow ++ c_str (minute_binary_buffer b');
             Text.month ++ format_int (tm_get_months (mk_tm 59 23 31 11))
               ++ Text.arrow ++ c_str (month_binary_buffer b');
             Text.day ++ format_int (tm_mday (mk_tm 59 23 31 11))
               ++ Text.arrow ++ c_str (day_binary_buffer b')]) /\
    debug_declared d' /\
    (read_int (format_int (tm_get_hours Hour12 (mk_tm 59 23 31 11)))
     = tm_get_hours Hour12 (mk_tm 59 23 31 11) /\
     read_int (format_int (tm_min (mk_tm 59 23 31 11)))
     = tm_min (mk_tm 59 23 31 11) /\
     read_int (format_int (tm_get_months (mk_tm 59 23 31 11)))
     = tm_get_months (mk_tm 59 23 31 11) /\
     read_int (format_int (tm_mday (mk_tm 59 23 31 11)))
     = tm_mday (mk_tm 59 23 31 11)).
Proof.
  apply (debug_time_lines Hour12 (mk_tm 59 23 31 11) initial_buffers
           initial_debug_buffers).
  - apply tm_ints_small; lia.
  - exact initial_buffers_declared.
  - repeat split.
Defined.
